(** * EZPROM: a shallow embedding of the record-packing EEPROM allocator

    The model follows [src/src/EZPROM.h] and [src/src/EZPROM.cpp] on the
    AVR target the library is written for:
    - [sizeof (ObjectData) = 3] (no padding: [id] then little-endian [size]),
      as the header comment says ("an additional 3 bytes ... with each object");
    - [int], [size_t] and [uint16_t] are 16 bits wide, so address and size
      arithmetic wraps modulo 2^16 ([u16]); [uint8_t] wraps modulo 2^8 ([u8]).

    The EEPROM is a byte store ([cells], absent cells read as 0) together
    with the log of the physical writes ([wear], most recent first), so that
    the wear-reducing [EEPROM.update] semantics (write only when the value
    differs) is observable. *)

From Stdlib Require Import ZArith Lia List.
From stdpp Require Import base gmap list.
Import ListNotations.
Open Scope Z_scope.

(** ** Machine integers *)

Definition u16 (x : Z) : Z := x mod 65536.
Definition u8 (x : Z) : Z := x mod 256.

(** ** The EEPROM device (Arduino [EEPROM.h]) *)

Record EEPROM_t := mkEEPROM {
  cells : gmap Z Z;
  wear : list Z
}.

(** The value of cell [a] ([EEPROM.read]). *)
Definition rd (e : EEPROM_t) (a : Z) : Z := default 0 (cells e !! a).

(** A small state monad over the device. *)
Definition M (A : Type) : Type := EEPROM_t -> A * EEPROM_t.

Definition ret {A} (x : A) : M A := fun e => (x, e).
Definition bind {A B} (m : M A) (k : A -> M B) : M B :=
  fun e => let (x, e') := m e in k x e'.

Notation "x <-- m ;; k" := (bind m (fun x => k))
  (at level 100, m at next level, right associativity).
Notation "m ;;; k" := (bind m (fun _ => k))
  (at level 100, right associativity).

Definition EEPROM_read (a : Z) : M Z := fun e => (rd e a, e).

(** A physical write of one byte. *)
Definition EEPROM_write (a v : Z) : M unit :=
  fun e => (tt, mkEEPROM (<[a := v]> (cells e)) (a :: wear e)).

(** [EEPROM.update(idx, uint8_t val)]: write only when the value differs. *)
Definition EEPROM_update (a v : Z) : M unit :=
  fun e => let v := u8 v in
           if Z.eqb (rd e a) v then (tt, e) else EEPROM_write a v e.

(** ** [EZPROM::ObjectData] and its 3-byte image ([EEPROM.get]/[EEPROM.put]) *)

Record ObjectData := mkObjectData {
  obj_id : Z;      (* uint8_t id *)
  obj_size : Z     (* uint16_t size *)
}.

Definition sizeof_ObjectData : Z := 3.

Definition dflt_ObjectData : ObjectData := mkObjectData 0 0.

Definition get_ObjectData (a : Z) : M ObjectData :=
  i <-- EEPROM_read a ;;
  lo <-- EEPROM_read (a + 1) ;;
  hi <-- EEPROM_read (a + 2) ;;
  ret (mkObjectData i (lo + 256 * hi)).

(** [EEPROM.put] updates the bytes of the value one by one, ascending. *)
Definition put_ObjectData (a : Z) (o : ObjectData) : M unit :=
  EEPROM_update a (obj_id o) ;;;
  EEPROM_update (a + 1) (obj_size o) ;;;
  EEPROM_update (a + 2) (Z.shiftr (obj_size o) 8).

Section EZPROM.

(** [EEPROM.length()] *)
Variable EEPROM_length : Z.

(** Address of the object counter: [EEPROM.length() - sizeof (uint8_t)]. *)
Definition count_address : Z := u16 (EEPROM_length - 1).

(** [EZPROM::reset] *)
Definition reset : M unit := EEPROM_update count_address 0.

(** [EZPROM::getObjectAmount] *)
Definition getObjectAmount : M Z := EEPROM_read count_address.

(** [startingAddress] of [saveObjectData]/[loadObjectData]. *)
Definition startingAddress (objectAmount : Z) : Z :=
  u16 (EEPROM_length - (1 + sizeof_ObjectData * objectAmount)).

(** The loop of [loadObjectData], from index [i], [k] iterations left. *)
Fixpoint loadObjects (start : Z) (i : nat) (k : nat) : M (list ObjectData) :=
  match k with
  | O => ret []
  | S k' =>
      o <-- get_ObjectData (u16 (start + Z.of_nat i * sizeof_ObjectData)) ;;
      os <-- loadObjects start (S i) k' ;;
      ret (o :: os)
  end.

(** [EZPROM::loadObjectData] *)
Definition loadObjectData (objectAmount : Z) : M (list ObjectData) :=
  loadObjects (startingAddress objectAmount) 0 (Z.to_nat objectAmount).

(** The loop of [saveObjectData]. *)
Fixpoint saveObjects (start : Z) (objectData : list ObjectData) (i : nat) (k : nat)
  : M unit :=
  match k with
  | O => ret tt
  | S k' =>
      put_ObjectData (u16 (start + Z.of_nat i * sizeof_ObjectData))
                     (nth i objectData dflt_ObjectData) ;;;
      saveObjects start objectData (S i) k'
  end.

(** [EZPROM::saveObjectData]; its [objectAmount] parameter is a [uint8_t]. *)
Definition saveObjectData (objectData : list ObjectData) (amount : Z) : M unit :=
  let objectAmount := u8 amount in
  saveObjects (startingAddress objectAmount) objectData 0 (Z.to_nat objectAmount) ;;;
  EEPROM_update count_address objectAmount.

(** The search loop shared by [save], [load], [remove], [exists], ...:
    the first index whose [id] matches. *)
Fixpoint find_index (id : Z) (objects : list ObjectData) : option nat :=
  match objects with
  | [] => None
  | o :: os =>
      if Z.eqb (obj_id o) id then Some O
      else option_map S (find_index id os)
  end.

(** [EZPROM::getAddress(ObjectData *, uint8_t)]: the [uint16_t] sum of the
    sizes of the objects before [index]. *)
Fixpoint sum_sizes (objects : list ObjectData) : Z :=
  match objects with
  | [] => 0
  | o :: os => obj_size o + sum_sizes os
  end.

Definition getAddress_objects (objects : list ObjectData) (index : nat) : Z :=
  u16 (sum_sizes (take index objects)).

(** [EZPROM::ramToEEPROM]: [EEPROM.update(address + i, ram[i])] for
    [i < size]; [ram] is the caller's object, consumed byte by byte (bytes
    past its end read as 0). *)
Fixpoint ramToEEPROM_loop (address : Z) (ram : list Z) (i : Z) (k : nat) : M unit :=
  match k with
  | O => ret tt
  | S k' =>
      EEPROM_update (u16 (address + i)) (hd 0 ram) ;;;
      ramToEEPROM_loop address (tl ram) (i + 1) k'
  end.

Definition ramToEEPROM (address : Z) (object : list Z) (size : Z) : M unit :=
  ramToEEPROM_loop address object 0 (Z.to_nat size).

(** The byte copy of [EZPROM::remove]:
    [EEPROM.update(newAddress + j, EEPROM.read(oldAddress + j))]. *)
Fixpoint copyBytes (oldAddress newAddress : Z) (j : Z) (k : nat) : M unit :=
  match k with
  | O => ret tt
  | S k' =>
      b <-- EEPROM_read (u16 (oldAddress + j)) ;;
      EEPROM_update (u16 (newAddress + j)) b ;;;
      copyBytes oldAddress newAddress (j + 1) k'
  end.

(** The record-moving loop of [EZPROM::remove], [i] from [index] up to
    [objectAmount - 2]. *)
Fixpoint moveRecords (objects updatedObjects : list ObjectData) (i : nat) (k : nat)
  : M unit :=
  match k with
  | O => ret tt
  | S k' =>
      copyBytes (getAddress_objects objects (S i))
                (getAddress_objects updatedObjects i) 0
                (Z.to_nat (obj_size (nth i updatedObjects dflt_ObjectData))) ;;;
      moveRecords objects updatedObjects (S i) k'
  end.

(** [updatedObjects] of [remove]: the objects before [index], then those
    after it, shifted down by one slot. *)
Definition remove_index (index : nat) (objects : list ObjectData) : list ObjectData :=
  take index objects ++ drop (S index) objects.

(** [EZPROM::remove] *)
Definition remove (id : Z) : M unit :=
  objectAmount <-- getObjectAmount ;;
  objects <-- loadObjectData objectAmount ;;
  match find_index id objects with
  | None => ret tt
  | Some index =>
      let updatedObjects := remove_index index objects in
      moveRecords objects updatedObjects index
                  (Z.to_nat (objectAmount - 1) - index) ;;;
      saveObjectData updatedObjects (objectAmount - 1)
  end.

(** The tail of [EZPROM::save] that appends the new object (the
    [if (hasSpace)] branch). *)
Definition save_append (id : Z) (src : list Z) (sz : Z)
    (objects : list ObjectData) (objectAmount : Z) : M bool :=
  let updatedObjects := objects ++ [mkObjectData id sz] in
  ramToEEPROM (getAddress_objects updatedObjects (Z.to_nat objectAmount)) src sz ;;;
  saveObjectData updatedObjects (objectAmount + 1) ;;;
  ret true.

(** [totalSize] of the resize branch: every object but [index], the
    directory of [objectAmount] entries with its counter, and the new
    object; accumulated in a [uint16_t]. *)
Definition resize_totalSize (objects : list ObjectData) (index : nat)
    (objectAmount sz : Z) : Z :=
  u16 (sum_sizes (remove_index index objects)
       + (1 + sizeof_ObjectData * objectAmount) + sz).

(** [totalSize] of the append branch: every object, the directory with its
    counter, and the new object with its [ObjectData]; a [uint16_t]. *)
Definition append_totalSize (objects : list ObjectData) (objectAmount sz : Z) : Z :=
  u16 (sum_sizes objects + (1 + sizeof_ObjectData * objectAmount)
       + (sz + sizeof_ObjectData)).

(** [EZPROM::save(id, src, elements)]; [src] holds the bytes of the
    caller's object and [sz] is [sizeof (T) * elements];
    [overwriteDiffSize] is the flag set by [setOverwriteIfSizeDifferent]. *)
Definition save (overwriteDiffSize : bool) (id : Z) (src : list Z) (sz : Z) : M bool :=
  objectAmount <-- getObjectAmount ;;
  objects <-- loadObjectData objectAmount ;;
  match find_index id objects with
  | Some index =>
      let o := nth index objects dflt_ObjectData in
      if Z.eqb (obj_size o) sz then
        ramToEEPROM (getAddress_objects objects index) src (obj_size o) ;;;
        ret true
      else if overwriteDiffSize then
        if Z.leb (resize_totalSize objects index objectAmount sz) EEPROM_length then
          remove id ;;;
          save_append id src sz (remove_index index objects) (objectAmount - 1)
        else ret false
      else ret false
  | None =>
      if Z.leb (append_totalSize objects objectAmount sz) EEPROM_length then
        save_append id src sz objects objectAmount
      else ret false
  end.

(** The read loop of [EZPROM::load]: [ram[i] = EEPROM.read(address + i)]. *)
Fixpoint readBytes (address : Z) (i : Z) (k : nat) : M (list Z) :=
  match k with
  | O => ret []
  | S k' =>
      b <-- EEPROM_read (u16 (address + i)) ;;
      bs <-- readBytes address (i + 1) k' ;;
      ret (b :: bs)
  end.

(** [EZPROM::load(id, dest)]: [Some bytes] is [true] with [bytes] copied
    into [dest]; [None] is [false] with [dest] untouched. *)
Definition load (id : Z) : M (option (list Z)) :=
  objectAmount <-- getObjectAmount ;;
  objects <-- loadObjectData objectAmount ;;
  match find_index id objects with
  | Some index =>
      let o := nth index objects dflt_ObjectData in
      bytes <-- readBytes (getAddress_objects objects index) 0 (Z.to_nat (obj_size o)) ;;
      ret (Some bytes)
  | None => ret None
  end.

(** [EZPROM::exists] *)
Definition exists_ (id : Z) : M bool :=
  objectAmount <-- getObjectAmount ;;
  objects <-- loadObjectData objectAmount ;;
  match find_index id objects with
  | Some _ => ret true
  | None => ret false
  end.

(** [EZPROM::getObjectData] *)
Definition getObjectData (id : Z) : M ObjectData :=
  objectAmount <-- getObjectAmount ;;
  objects <-- loadObjectData objectAmount ;;
  match find_index id objects with
  | Some index => ret (nth index objects dflt_ObjectData)
  | None => ret (mkObjectData id 0)
  end.

(** [EZPROM::getAddress(uint8_t id)] *)
Definition getAddress (id : Z) : M Z :=
  objectAmount <-- getObjectAmount ;;
  objects <-- loadObjectData objectAmount ;;
  match find_index id objects with
  | Some index => ret (getAddress_objects objects index)
  | None => ret EEPROM_length
  end.

(** [EZPROM::isValid]: [curInt] starts at 0 and is loaded (a little-endian
    [uint16_t]) only when the object exists with size 2. *)
Definition isValid (uniqueInt id : Z) : M bool :=
  ex <-- exists_ id ;;
  curInt <-- (if ex then
                od <-- getObjectData id ;;
                if Z.eqb (obj_size od) 2 then
                  r <-- load id ;;
                  match r with
                  | Some [b0; b1] => ret (b0 + 256 * b1)
                  | _ => ret 0
                  end
                else ret 0
              else ret 0) ;;
  ret (Z.eqb curInt uniqueInt).

(** [EZPROM::setUniqueId]: [save(id, uniqueInt)] of a [uint16_t]. *)
Definition setUniqueId (overwriteDiffSize : bool) (uniqueInt id : Z) : M unit :=
  _ <-- save overwriteDiffSize id [u8 uniqueInt; u8 (Z.shiftr uniqueInt 8)] 2 ;;
  ret tt.

(** [EZPROM::setup] *)
Definition setup (overwriteDiffSize : bool) (uniqueInt id : Z) : M bool :=
  v <-- isValid uniqueInt id ;;
  if negb v then
    reset ;;; setUniqueId overwriteDiffSize uniqueInt id ;;; ret true
  else ret false.

End EZPROM.

(** ** [EZPROM::Serializable] *)

(** [putObject(src, stream, index)]: [stream[index++] = ram[i]] for
    [i < size], [size = sizeof (T)]; [ram] holds the bytes of [src] and
    [index] is a [uint16_t]. A write outside the stream is undefined in C++;
    stdpp's [insert] ignores it. Returns the stream and the new index. *)
Fixpoint putObject_loop (ram stream : list Z) (index : Z) (k : nat) : list Z * Z :=
  match k with
  | O => (stream, index)
  | S k' =>
      putObject_loop (tl ram) (<[Z.to_nat index := hd 0 ram]> stream) (u16 (index + 1)) k'
  end.

Definition putObject (size : Z) (ram stream : list Z) (index : Z) : list Z * Z :=
  putObject_loop ram stream index (Z.to_nat size).

(** [getObject(dest, stream, index)]: [ram[i] = stream[index++]] for
    [i < size]; returns the [size] bytes written into [dest] and the new
    index. *)
Fixpoint getObject_loop (stream : list Z) (index : Z) (k : nat) : list Z * Z :=
  match k with
  | O => ([], index)
  | S k' =>
      let '(bs, index') := getObject_loop stream (u16 (index + 1)) k' in
      (nth (Z.to_nat index) stream 0 :: bs, index')
  end.

Definition getObject (size : Z) (stream : list Z) (index : Z) : list Z * Z :=
  getObject_loop stream index (Z.to_nat size).

(** The abstract class: [size()], [serialize(stream, index)] and
    [deserialize(stream, index)], the last two as functions of the stream
    and index they update ([deserialize] also of the object it updates). *)
Class Serializable (T : Type) := {
  ser_size : T -> Z;
  serialize : T -> list Z -> Z -> list Z * Z;
  deserialize : T -> list Z -> Z -> T * Z
}.

Section Serial.

Context {T : Type} `{Serializable T}.

(** [EZPROM::saveSerial]: a [uint8_t stream[size]] (its indeterminate
    contents modelled as zeros) filled by [serialize] from index 0, then
    [save(id, *stream, size)], a save of [size] one-byte elements. *)
Definition saveSerial (L : Z) (overwriteDiffSize : bool) (id : Z) (src : T) : M bool :=
  let size := u16 (ser_size src) in
  let stream := (serialize src (repeat 0 (Z.to_nat size)) 0).1 in
  save L overwriteDiffSize id stream size.

(** [EZPROM::loadSerial]: the record's bytes read into a stream, then
    [dest->deserialize(stream, serialIndex)] from index 0; returns the
    result and the updated [dest]. *)
Definition loadSerial (L : Z) (id : Z) (dest : T) : M (bool * T) :=
  objectAmount <-- getObjectAmount L ;;
  objects <-- loadObjectData L objectAmount ;;
  match find_index id objects with
  | Some index =>
      let o := nth index objects dflt_ObjectData in
      stream <-- readBytes (getAddress_objects objects index) 0 (Z.to_nat (obj_size o)) ;;
      ret (true, (deserialize dest stream 0).1)
  | None => ret (false, dest)
  end.

End Serial.

(** ** Abstract view of a well-formed store *)

Section Layout.

Variable EEPROM_length : Z.

(** Every cell holds a byte. *)
Definition bytes_ok (e : EEPROM_t) : Prop := forall a, 0 <= rd e a < 256.

(** Start of the directory of [n] entries. *)
Definition dir_start (n : Z) : Z := EEPROM_length - 1 - sizeof_ObjectData * n.

(** The store [e] holds the directory [objects]: the counter byte, the
    3-byte images of the entries, the capacity invariant
    (sizes + counter + directory fit), and byte-valued cells. *)
Record holds (e : EEPROM_t) (objects : list ObjectData) : Prop := {
  holds_length : 1 <= EEPROM_length <= 65535;
  holds_bytes : bytes_ok e;
  holds_count : rd e (EEPROM_length - 1) = Z.of_nat (length objects);
  holds_capacity :
    sum_sizes objects + 1 + sizeof_ObjectData * Z.of_nat (length objects)
      <= EEPROM_length;
  holds_fields : Forall (fun o => 0 <= obj_id o < 256 /\ 0 <= obj_size o < 65536)
                        objects;
  holds_entries : forall (i : nat) o, objects !! i = Some o ->
    let a := dir_start (Z.of_nat (length objects)) + 3 * Z.of_nat i in
    rd e a = obj_id o /\ rd e (a + 1) = obj_size o mod 256 /\
    rd e (a + 2) = obj_size o / 256
}.

(** The bytes of record [k] of [objects], read at its computed address. *)
Definition record_bytes (e : EEPROM_t) (objects : list ObjectData) (k : nat) : list Z :=
  map (fun j => rd e (getAddress_objects objects k + j))
      (seqZ 0 (obj_size (nth k objects dflt_ObjectData))).

End Layout.

(** ** Auxiliary definitions of the proofs *)

(** The fields of every entry fit their C types. *)
Definition fields_ok (objects : list ObjectData) : Prop :=
  Forall (fun o => 0 <= obj_id o < 256 /\ 0 <= obj_size o < 65536) objects.

(** Computations that keep the cells byte-valued. *)
Definition keeps_bytes {A} (m : M A) : Prop :=
  forall e, bytes_ok e -> bytes_ok (m e).2.

(** The cells of [f] with the window [lo, hi) slid left by [d]. *)
Definition shifted (f : Z -> Z) (lo hi d : Z) (b : Z) : Z :=
  if Z.leb lo b && Z.ltb b hi then f (b + d) else f b.

(** A decision procedure for [holds], used to check concrete stores. *)
Definition holds_check (L : Z) (e : EEPROM_t) (objects : list ObjectData) : bool :=
  let n := Z.of_nat (length objects) in
  bool_decide (1 <= L <= 65535) &&
  bool_decide (map_Forall (fun _ v => 0 <= v < 256) (cells e)) &&
  Z.eqb (rd e (L - 1)) n &&
  Z.leb (sum_sizes objects + 1 + sizeof_ObjectData * n) L &&
  forallb (fun o => bool_decide (0 <= obj_id o < 256 /\ 0 <= obj_size o < 65536)) objects &&
  forallb (fun i =>
    let o := nth i objects dflt_ObjectData in
    let a := dir_start L n + 3 * Z.of_nat i in
    Z.eqb (rd e a) (obj_id o) && Z.eqb (rd e (a + 1)) (obj_size o mod 256) &&
    Z.eqb (rd e (a + 2)) (obj_size o / 256)) (seq 0 (length objects)).

(** Client sessions: sequences of the mutating operations. *)
Inductive op :=
| op_save (overwriteDiffSize : bool) (id : Z) (src : list Z) (sz : Z)
| op_remove (id : Z)
| op_reset.

Definition run_op (L : Z) (o : op) : M unit :=
  match o with
  | op_save ods id src sz => _ <-- save L ods id src sz ;; ret tt
  | op_remove id => remove L id
  | op_reset => reset L
  end.

Fixpoint run_ops (L : Z) (os : list op) : M unit :=
  match os with
  | [] => ret tt
  | o :: os' => run_op L o ;;; run_ops L os'
  end.

(** A [save] whose [id] is a [uint8_t] and whose size [sz] is small enough
    that no [uint16_t] [totalSize] of [save] can wrap. *)
Definition op_ok (L : Z) (o : op) : Prop :=
  match o with
  | op_save _ id _ sz => 0 <= id < 256 /\ 0 <= sz /\ sz + L + 4 <= 65536
  | _ => True
  end.

(** ** Concrete stores *)

Definition empty_store : EEPROM_t := mkEEPROM empty [].

(** Three records [a] (id 10, 4 bytes), [b] (id 11, 6 bytes) and [c]
    (id 12, 2 bytes) saved in that order in a 64-byte EEPROM. *)
Definition abc_objects : list ObjectData :=
  [mkObjectData 10 4; mkObjectData 11 6; mkObjectData 12 2].

Definition abc_store : EEPROM_t :=
  let e1 := (save 64 false 10 [1; 2; 3; 4] 4 empty_store).2 in
  let e2 := (save 64 false 11 [5; 6; 7; 8; 9; 10] 6 e1).2 in
  (save 64 false 12 [11; 12] 2 e2).2.

(** 255 one-byte records, ids 0 to 254, in a 4096-byte EEPROM (ATmega2560). *)
Definition full255_objects : list ObjectData :=
  map (fun i => mkObjectData (Z.of_nat i) 1) (seq 0 255).

Definition full255_store : EEPROM_t :=
  fold_left (fun e i => (save 4096 false (Z.of_nat i) [1] 1 e).2) (seq 0 255) empty_store.

(** A client class in the style of the header's documentation: a
    [uint8_t] and a [uint16_t] field, written and read with [putObject] and
    [getObject]. *)
Record Point := mkPoint { px : Z; py : Z }.

#[export] Instance Serializable_Point : Serializable Point := {
  ser_size _ := 3;
  serialize p stream index :=
    let '(s1, i1) := putObject 1 [px p] stream index in
    putObject 2 [u8 (py p); u8 (Z.shiftr (py p) 8)] s1 i1;
  deserialize d stream index :=
    let '(bx, i1) := getObject 1 stream index in
    let '(bxy, i2) := getObject 2 stream i1 in
    (mkPoint (nth 0 bx 0) (nth 0 bxy 0 + 256 * nth 1 bxy 0), i2)
}.

(** ** Device lemmas *)

Lemma rd_update (e : EEPROM_t) (a v b : Z) :
  rd (EEPROM_update a v e).2 b = if Z.eqb a b then u8 v else rd e b.
Proof.
  unfold EEPROM_update, EEPROM_write, rd.
  destruct (Z.eqb_spec (default 0 (cells e !! a)) (u8 v)) as [E|E]; simpl;
    destruct (Z.eqb_spec a b) as [->|NE]; auto.
  - rewrite lookup_insert_eq. reflexivity.
  - rewrite lookup_insert_ne; auto.
Qed.

Lemma update_fst (e : EEPROM_t) (a v : Z) : (EEPROM_update a v e).1 = tt.
Proof.
  unfold EEPROM_update, EEPROM_write. destruct (_ =? _); reflexivity.
Qed.

Lemma update_same (e : EEPROM_t) (a v : Z) :
  rd e a = u8 v -> EEPROM_update a v e = (tt, e).
Proof.
  intros H. unfold EEPROM_update. rewrite H, Z.eqb_refl. reflexivity.
Qed.

Lemma u8_range (v : Z) : 0 <= u8 v < 256.
Proof. unfold u8. apply Z.mod_pos_bound. lia. Qed.

Lemma u8_id (v : Z) : 0 <= v < 256 -> u8 v = v.
Proof. intros. unfold u8. apply Z.mod_small. lia. Qed.

Lemma u16_id (v : Z) : 0 <= v < 65536 -> u16 v = v.
Proof. intros. unfold u16. apply Z.mod_small. lia. Qed.

Lemma bytes_ok_update (e : EEPROM_t) (a v : Z) :
  bytes_ok e -> bytes_ok (EEPROM_update a v e).2.
Proof.
  intros H b. rewrite rd_update. destruct (_ =? _); auto using u8_range.
Qed.

Lemma bind_unfold {A B} (m : M A) (k : A -> M B) (e : EEPROM_t) :
  bind m k e = k (m e).1 (m e).2.
Proof. unfold bind. destruct (m e); reflexivity. Qed.

(** Reading never changes the store. *)
Lemma get_ObjectData_spec (e : EEPROM_t) (a : Z) :
  get_ObjectData a e = (mkObjectData (rd e a) (rd e (a + 1) + 256 * rd e (a + 2)), e).
Proof. reflexivity. Qed.

Lemma loadObjects_readonly (e : EEPROM_t) (start : Z) (k i : nat) :
  (loadObjects start i k e).2 = e.
Proof.
  revert i. induction k as [|k IH]; intros i; simpl; [reflexivity|].
  unfold bind at 1. rewrite get_ObjectData_spec.
  rewrite bind_unfold. simpl. apply IH.
Qed.

Lemma readBytes_spec (e : EEPROM_t) (address : Z) (k : nat) (i : Z) :
  readBytes address i k e =
  (map (fun j => rd e (u16 (address + j))) (seqZ i (Z.of_nat k)), e).
Proof.
  revert i. induction k as [|k IH]; intros i; [reflexivity|].
  simpl readBytes. unfold bind at 1. cbn [fst snd EEPROM_read].
  rewrite bind_unfold, IH. cbn [fst snd ret].
  rewrite (seqZ_cons i (Z.of_nat (S k))) by lia.
  replace (Z.pred (Z.of_nat (S k))) with (Z.of_nat k) by lia.
  replace (Z.succ i) with (i + 1) by lia. reflexivity.
Qed.

(** ** Reading the directory of a well-formed store *)

Lemma sum_sizes_nonneg (objects : list ObjectData) :
  fields_ok objects -> 0 <= sum_sizes objects.
Proof.
  induction 1 as [|o os Ho _ IH]; simpl; lia.
Qed.

Lemma sum_sizes_app (l1 l2 : list ObjectData) :
  sum_sizes (l1 ++ l2) = sum_sizes l1 + sum_sizes l2.
Proof. induction l1 as [|o os IH]; simpl; lia. Qed.

Lemma fields_ok_take (objects : list ObjectData) (n : nat) :
  fields_ok objects -> fields_ok (take n objects).
Proof. apply Forall_take. Qed.

Lemma fields_ok_drop (objects : list ObjectData) (n : nat) :
  fields_ok objects -> fields_ok (drop n objects).
Proof. apply Forall_drop. Qed.

Lemma sum_sizes_take_le (objects : list ObjectData) (n : nat) :
  fields_ok objects -> sum_sizes (take n objects) <= sum_sizes objects.
Proof.
  intros H. rewrite <- (take_drop n objects) at 2. rewrite sum_sizes_app.
  pose proof (sum_sizes_nonneg _ (fields_ok_drop objects n H)). lia.
Qed.

Lemma decode_size (s : Z) : s mod 256 + 256 * (s / 256) = s.
Proof. pose proof (Z_div_mod_eq_full s 256). lia. Qed.

Section Directory.

Variable L : Z.

Lemma holds_count_address (e : EEPROM_t) (objects : list ObjectData) :
  holds L e objects -> count_address L = L - 1.
Proof.
  intros H. destruct (holds_length _ _ _ H). unfold count_address. apply u16_id. lia.
Qed.

Lemma holds_getObjectAmount (e : EEPROM_t) (objects : list ObjectData) :
  holds L e objects -> getObjectAmount L e = (Z.of_nat (length objects), e).
Proof.
  intros H. unfold getObjectAmount, EEPROM_read.
  rewrite (holds_count_address e objects H), (holds_count _ _ _ H). reflexivity.
Qed.

Lemma holds_startingAddress (e : EEPROM_t) (objects : list ObjectData) :
  holds L e objects ->
  startingAddress L (Z.of_nat (length objects)) = dir_start L (Z.of_nat (length objects)).
Proof.
  intros H. destruct H as [HL _ _ Hcap Hf _].
  pose proof (sum_sizes_nonneg _ Hf).
  unfold startingAddress, dir_start, sizeof_ObjectData in *. rewrite u16_id by lia. lia.
Qed.

Lemma holds_loadObjects (e : EEPROM_t) (objects : list ObjectData) (k i : nat) :
  holds L e objects -> (i + k = length objects)%nat ->
  loadObjects (dir_start L (Z.of_nat (length objects))) i k e = (drop i objects, e).
Proof.
  intros H. revert i. induction k as [|k IH]; intros i Hik.
  - simpl. rewrite drop_ge by lia. reflexivity.
  - simpl loadObjects. unfold bind at 1. rewrite get_ObjectData_spec.
    rewrite bind_unfold. cbn [fst snd]. rewrite IH by lia. cbn [fst snd ret].
    destruct (lookup_lt_is_Some_2 objects i) as [o Ho]; [lia|].
    rewrite (drop_S objects o i Ho).
    pose proof (holds_entries _ _ _ H i o Ho) as (E1 & E2 & E3). cbv zeta in *.
    destruct H as [HL _ _ Hcap Hf _].
    pose proof (sum_sizes_nonneg _ Hf).
    rewrite u16_id by (unfold dir_start, sizeof_ObjectData in *; lia).
    unfold sizeof_ObjectData. replace (Z.of_nat i * 3) with (3 * Z.of_nat i) by lia.
    rewrite E1, E2, E3, decode_size. destruct o. reflexivity.
Qed.

Lemma holds_loadObjectData (e : EEPROM_t) (objects : list ObjectData) :
  holds L e objects ->
  loadObjectData L (Z.of_nat (length objects)) e = (objects, e).
Proof.
  intros H. unfold loadObjectData. rewrite (holds_startingAddress e objects H).
  rewrite Nat2Z.id. apply (holds_loadObjects e objects _ 0 H). lia.
Qed.

(** The common prologue of the operations: counter, then directory. *)
Lemma holds_prologue {A} (e : EEPROM_t) (objects : list ObjectData)
    (k : Z -> list ObjectData -> M A) :
  holds L e objects ->
  bind (getObjectAmount L) (fun n => bind (loadObjectData L n) (k n)) e =
  k (Z.of_nat (length objects)) objects e.
Proof.
  intros H. rewrite bind_unfold, (holds_getObjectAmount e objects H). cbn [fst snd].
  rewrite bind_unfold, (holds_loadObjectData e objects H). reflexivity.
Qed.

End Directory.

(** ** Writing records: [ramToEEPROM] *)

Lemma ramToEEPROM_loop_spec (address : Z) (ram : list Z) (i : Z) (k : nat) (e : EEPROM_t) :
  0 <= address + i -> address + i + Z.of_nat k <= 65536 ->
  let e' := (ramToEEPROM_loop address ram i k e).2 in
  (forall b, rd e' b =
     if Z.leb (address + i) b && Z.ltb b (address + i + Z.of_nat k)
     then u8 (nth (Z.to_nat (b - address - i)) ram 0) else rd e b) /\
  (exists ws, wear e' = ws ++ wear e /\
     forall a, In a ws ->
       address + i <= a < address + i + Z.of_nat k /\ rd e a <> rd e' a).
Proof.
  revert i ram e. induction k as [|k IH]; intros i ram e H0 H1; cbv zeta.
  - split.
    + intros b. simpl. destruct (_ && _) eqn:E; [|reflexivity].
      apply andb_prop in E as [E1 E2]. apply Z.leb_le in E1. apply Z.ltb_lt in E2. lia.
    + exists []. split; [reflexivity|]. intros a [].
  - simpl ramToEEPROM_loop. rewrite bind_unfold.
    rewrite u16_id by lia.
    set (e1 := (EEPROM_update (address + i) (hd 0 ram) e).2).
    destruct (IH (i + 1) (tl ram) e1) as [IHr [ws [IHw IHa]]]; [lia|lia|].
    set (e' := (ramToEEPROM_loop address (tl ram) (i + 1) k e1).2) in *.
    assert (Hr : forall b, rd e' b =
      if Z.leb (address + i) b && Z.ltb b (address + i + Z.of_nat (S k))
      then u8 (nth (Z.to_nat (b - address - i)) ram 0) else rd e b).
    { intros b. rewrite IHr. unfold e1. rewrite rd_update.
      destruct (Z.leb_spec (address + (i + 1)) b), (Z.ltb_spec b (address + (i + 1) + Z.of_nat k)),
               (Z.leb_spec (address + i) b), (Z.ltb_spec b (address + i + Z.of_nat (S k))),
               (Z.eqb_spec (address + i) b); simpl; try lia; try reflexivity.
      - replace (Z.to_nat (b - address - i)) with (S (Z.to_nat (b - address - (i + 1)))) by lia.
        destruct ram; simpl; [destruct (Z.to_nat _)|]; reflexivity.
      - subst b. replace (Z.to_nat (address + i - address - i)) with O by lia.
        destruct ram; reflexivity. }
    split; [exact Hr|].
    unfold e1 in IHw, IHa. unfold EEPROM_update, EEPROM_write in IHw, IHa.
    destruct (Z.eqb_spec (rd e (address + i)) (u8 (hd 0 ram))) as [Eq|Ne].
    + exists ws. split; [exact IHw|]. intros a Ha. destruct (IHa a Ha) as [Hra Hne]. split; [lia|exact Hne].
    + exists (ws ++ [address + i]). split; [rewrite IHw; simpl; rewrite <- app_assoc; reflexivity|].
      intros a Ha. apply in_app_or in Ha as [Ha|[<-|[]]].
      * destruct (IHa a Ha) as [Hra Hne]. split; [lia|].
        unfold rd in Hne |- *. simpl in Hne. rewrite lookup_insert_ne in Hne by lia. exact Hne.
      * split; [lia|]. rewrite Hr. destruct (Z.leb_spec (address + i) (address + i)), (Z.ltb_spec (address + i) (address + i + Z.of_nat (S k))); simpl; try lia.
        replace (Z.to_nat (address + i - address - i)) with O by lia.
        destruct ram; exact Ne.
Qed.

(** Rewriting the bytes a record already holds writes nothing. *)
Lemma ramToEEPROM_loop_noop (address : Z) (ram : list Z) (i : Z) (k : nat) (e : EEPROM_t) :
  0 <= address + i -> address + i + Z.of_nat k <= 65536 ->
  (forall j, (j < k)%nat -> rd e (address + i + Z.of_nat j) = u8 (nth j ram 0)) ->
  ramToEEPROM_loop address ram i k e = (tt, e).
Proof.
  revert i ram. induction k as [|k IH]; intros i ram H0 H1 Hj; [reflexivity|].
  simpl ramToEEPROM_loop. unfold bind at 1. rewrite u16_id by lia.
  rewrite update_same.
  - apply IH; [lia|lia|]. intros j Hjk.
    replace (address + (i + 1) + Z.of_nat j) with (address + i + Z.of_nat (S j)) by lia.
    rewrite Hj by lia. destruct ram; simpl; [destruct j|]; reflexivity.
  - specialize (Hj O ltac:(lia)). rewrite Z.add_0_r in Hj. rewrite Hj. destruct ram; reflexivity.
Qed.

(** Case analysis on every [Z.eqb] test of the goal. *)
Ltac zeqb_cases :=
  repeat match goal with
  | |- context [Z.eqb ?x ?y] => destruct (Z.eqb_spec x y); try lia
  end.

Lemma keeps_bytes_ret {A} (x : A) : keeps_bytes (ret x).
Proof. intros e H. exact H. Qed.

Lemma keeps_bytes_read (a : Z) : keeps_bytes (EEPROM_read a).
Proof. intros e H. exact H. Qed.

Lemma keeps_bytes_update (a v : Z) : keeps_bytes (EEPROM_update a v).
Proof. intros e H. apply bytes_ok_update, H. Qed.

Lemma keeps_bytes_bind {A B} (m : M A) (k : A -> M B) :
  keeps_bytes m -> (forall x, keeps_bytes (k x)) -> keeps_bytes (bind m k).
Proof.
  intros Hm Hk e H. rewrite bind_unfold. apply Hk, Hm, H.
Qed.

Create HintDb keeps.
#[export] Hint Resolve keeps_bytes_ret keeps_bytes_read keeps_bytes_update
  keeps_bytes_bind : keeps.

Lemma keeps_bytes_put (a : Z) (o : ObjectData) : keeps_bytes (put_ObjectData a o).
Proof. unfold put_ObjectData. auto with keeps. Qed.

Lemma keeps_bytes_saveObjects (start : Z) (objs : list ObjectData) (k i : nat) :
  keeps_bytes (saveObjects start objs i k).
Proof.
  revert i. induction k; intros i; simpl; auto using keeps_bytes_put with keeps.
Qed.

Lemma keeps_bytes_saveObjectData (L : Z) (objs : list ObjectData) (n : Z) :
  keeps_bytes (saveObjectData L objs n).
Proof. unfold saveObjectData. auto using keeps_bytes_saveObjects with keeps. Qed.

Lemma keeps_bytes_copyBytes (o n j : Z) (k : nat) : keeps_bytes (copyBytes o n j k).
Proof. revert j. induction k; intros j; simpl; auto with keeps. Qed.

Lemma keeps_bytes_moveRecords (objs upd : list ObjectData) (k i : nat) :
  keeps_bytes (moveRecords objs upd i k).
Proof.
  revert i. induction k; intros i; simpl; auto using keeps_bytes_copyBytes with keeps.
Qed.

Lemma keeps_bytes_ramToEEPROM_loop (a : Z) (ram : list Z) (k : nat) (i : Z) :
  keeps_bytes (ramToEEPROM_loop a ram i k).
Proof. revert ram i. induction k; intros ram i; simpl; auto with keeps. Qed.

(** ** Writing the directory: [saveObjectData] *)

Lemma put_ObjectData_spec (a : Z) (o : ObjectData) (e : EEPROM_t) (b : Z) :
  rd (put_ObjectData a o e).2 b =
  if Z.eqb b (a + 2) then u8 (Z.shiftr (obj_size o) 8)
  else if Z.eqb b (a + 1) then u8 (obj_size o)
  else if Z.eqb b a then u8 (obj_id o) else rd e b.
Proof.
  unfold put_ObjectData. rewrite !bind_unfold, !rd_update.
  destruct (Z.eqb_spec (a + 2) b), (Z.eqb_spec b (a + 2)),
           (Z.eqb_spec (a + 1) b), (Z.eqb_spec b (a + 1)),
           (Z.eqb_spec a b), (Z.eqb_spec b a); try lia; reflexivity.
Qed.

Lemma byte_fields (o : ObjectData) :
  0 <= obj_id o < 256 -> 0 <= obj_size o < 65536 ->
  u8 (obj_id o) = obj_id o /\ u8 (obj_size o) = obj_size o mod 256 /\
  u8 (Z.shiftr (obj_size o) 8) = obj_size o / 256.
Proof.
  intros Hi Hs. split; [apply u8_id; lia|]. split; [reflexivity|].
  rewrite Z.shiftr_div_pow2 by lia. change (2 ^ 8) with 256.
  apply u8_id. split; [apply Z.div_pos; lia|]. apply Z.div_lt_upper_bound; lia.
Qed.

Lemma saveObjects_spec (start : Z) (objs : list ObjectData) (k i : nat) (e : EEPROM_t) :
  0 <= start -> start + 3 * Z.of_nat (i + k) <= 65536 ->
  let e' := (saveObjects start objs i k e).2 in
  (forall b, b < start + 3 * Z.of_nat i \/ start + 3 * Z.of_nat (i + k) <= b ->
     rd e' b = rd e b) /\
  (forall j : nat, (i <= j < i + k)%nat ->
     let a := start + 3 * Z.of_nat j in
     let o := nth j objs dflt_ObjectData in
     rd e' a = u8 (obj_id o) /\ rd e' (a + 1) = u8 (obj_size o) /\
     rd e' (a + 2) = u8 (Z.shiftr (obj_size o) 8)).
Proof.
  revert i e. induction k as [|k IH]; intros i e H0 H1; cbv zeta.
  - split; [reflexivity|]. intros j Hj. lia.
  - simpl saveObjects. rewrite bind_unfold.
    unfold sizeof_ObjectData. rewrite u16_id by lia.
    set (e1 := (put_ObjectData (start + Z.of_nat i * 3) (nth i objs dflt_ObjectData) e).2).
    destruct (IH (S i) e1) as [IHo IHj]; [lia|lia|].
    split.
    + intros b Hb. rewrite IHo by lia. unfold e1. rewrite put_ObjectData_spec.
      destruct (Z.eqb_spec b (start + Z.of_nat i * 3 + 2)),
               (Z.eqb_spec b (start + Z.of_nat i * 3 + 1)),
               (Z.eqb_spec b (start + Z.of_nat i * 3)); try lia; reflexivity.
    + intros j Hj. destruct (Nat.eq_dec j i) as [->|Hne].
      * rewrite !IHo by lia. unfold e1. rewrite !put_ObjectData_spec.
        zeqb_cases; auto.
      * apply IHj. lia.
Qed.

Lemma fields_ok_nth (objs : list ObjectData) (j : nat) :
  fields_ok objs ->
  0 <= obj_id (nth j objs dflt_ObjectData) < 256 /\
  0 <= obj_size (nth j objs dflt_ObjectData) < 65536.
Proof.
  intros H. destruct (nth_lookup_or_length objs j dflt_ObjectData) as [Hl|Hl].
  - eapply Forall_lookup_1 in H; [exact H|exact Hl].
  - rewrite nth_overflow by lia. simpl. lia.
Qed.

Lemma saveObjectData_holds (L : Z) (upd : list ObjectData) (e : EEPROM_t) :
  bytes_ok e -> 1 <= L <= 65535 -> fields_ok upd -> (length upd <= 255)%nat ->
  sum_sizes upd + 1 + sizeof_ObjectData * Z.of_nat (length upd) <= L ->
  let e' := (saveObjectData L upd (Z.of_nat (length upd)) e).2 in
  holds L e' upd /\
  (forall b, b < dir_start L (Z.of_nat (length upd)) -> rd e' b = rd e b).
Proof.
  intros Hb HL Hf Hlen Hcap. cbv zeta.
  pose proof (sum_sizes_nonneg _ Hf) as Hs.
  unfold saveObjectData. rewrite u8_id by lia. rewrite bind_unfold.
  assert (Hst : startingAddress L (Z.of_nat (length upd)) = dir_start L (Z.of_nat (length upd))).
  { unfold startingAddress, dir_start, sizeof_ObjectData in *. rewrite u16_id by lia. lia. }
  rewrite Hst, Nat2Z.id.
  assert (Hca : count_address L = L - 1) by (unfold count_address; apply u16_id; lia).
  rewrite Hca.
  destruct (saveObjects_spec (dir_start L (Z.of_nat (length upd))) upd (length upd) 0 e)
    as [Ho Hj]; [unfold dir_start, sizeof_ObjectData in *; lia|unfold dir_start, sizeof_ObjectData in *; lia|].
  set (e1 := (saveObjects (dir_start L (Z.of_nat (length upd))) upd 0 (length upd) e).2) in *.
  unfold dir_start, sizeof_ObjectData in *.
  split.
  - constructor.
    + exact HL.
    + apply keeps_bytes_update. apply keeps_bytes_saveObjects, Hb.
    + rewrite rd_update, Z.eqb_refl. apply u8_id. lia.
    + exact Hcap.
    + exact Hf.
    + intros i o Hi. pose proof (lookup_lt_Some _ _ _ Hi) as Hil.
      destruct (Hj i ltac:(lia)) as (E1 & E2 & E3). cbv zeta in *.
      rewrite (nth_lookup_Some _ _ _ _ Hi) in E1, E2, E3.
      assert (Hfo : 0 <= obj_id o < 256 /\ 0 <= obj_size o < 65536)
        by (eapply Forall_lookup_1 in Hf; [exact Hf|exact Hi]).
      destruct (byte_fields o) as (B1 & B2 & B3); [lia|lia|].
      unfold dir_start, sizeof_ObjectData. rewrite !rd_update. zeqb_cases.
      all: split; [|split]; congruence.
  - intros b Hlt. rewrite rd_update. zeqb_cases. apply Ho. lia.
Qed.

(** ** Lists of entries *)

Lemma find_index_Some (id : Z) (objs : list ObjectData) (idx : nat) :
  find_index id objs = Some idx ->
  (idx < length objs)%nat /\ obj_id (nth idx objs dflt_ObjectData) = id /\
  (forall j, (j < idx)%nat -> obj_id (nth j objs dflt_ObjectData) <> id).
Proof.
  revert idx. induction objs as [|o os IH]; intros idx H; simpl in H; [discriminate|].
  destruct (Z.eqb_spec (obj_id o) id) as [E|E].
  - injection H as <-. simpl. split; [lia|]. split; [exact E|]. intros j Hj. lia.
  - destruct (find_index id os) as [idx'|] eqn:F; simpl in H; [|discriminate].
    injection H as <-. destruct (IH idx' eq_refl) as (H1 & H2 & H3).
    simpl. split; [lia|]. split; [exact H2|].
    intros [|j] Hj; simpl; [exact E|]. apply H3. lia.
Qed.

Lemma find_index_None (id : Z) (objs : list ObjectData) :
  find_index id objs = None -> Forall (fun o => obj_id o <> id) objs.
Proof.
  induction objs as [|o os IH]; intros H; simpl in H; [constructor|].
  destruct (Z.eqb_spec (obj_id o) id); [discriminate|].
  destruct (find_index id os); [discriminate|]. constructor; auto.
Qed.

Lemma length_remove_index (idx : nat) (objs : list ObjectData) :
  (idx < length objs)%nat -> length (remove_index idx objs) = (length objs - 1)%nat.
Proof.
  intros H. unfold remove_index. rewrite length_app, length_take, length_drop. lia.
Qed.

Lemma nth_remove_index (idx : nat) (objs : list ObjectData) (k : nat) :
  (idx < length objs)%nat ->
  nth k (remove_index idx objs) dflt_ObjectData =
  nth (if Nat.ltb k idx then k else S k) objs dflt_ObjectData.
Proof.
  intros H. unfold remove_index. rewrite !nth_lookup.
  destruct (Nat.ltb_spec k idx).
  - rewrite lookup_app_l by (rewrite length_take; lia). rewrite lookup_take_lt by lia.
    reflexivity.
  - rewrite lookup_app_r by (rewrite length_take; lia). rewrite length_take, lookup_drop.
    f_equal. f_equal. lia.
Qed.

Lemma fields_ok_remove_index (idx : nat) (objs : list ObjectData) :
  fields_ok objs -> fields_ok (remove_index idx objs).
Proof.
  intros H. unfold remove_index. apply Forall_app_2; [apply Forall_take|apply Forall_drop]; exact H.
Qed.

Lemma sum_sizes_take_S (objs : list ObjectData) (i : nat) :
  (i < length objs)%nat ->
  sum_sizes (take (S i) objs) = sum_sizes (take i objs) + obj_size (nth i objs dflt_ObjectData).
Proof.
  intros H. destruct (lookup_lt_is_Some_2 objs i H) as [o Ho].
  rewrite (take_S_r _ _ _ Ho), sum_sizes_app, (nth_lookup_Some _ _ _ _ Ho). simpl. lia.
Qed.

Lemma sum_sizes_remove_index (idx : nat) (objs : list ObjectData) :
  (idx < length objs)%nat ->
  sum_sizes (remove_index idx objs) =
  sum_sizes objs - obj_size (nth idx objs dflt_ObjectData).
Proof.
  intros H. unfold remove_index. rewrite sum_sizes_app.
  rewrite <- (take_drop (S idx) objs) at 3. rewrite sum_sizes_app, sum_sizes_take_S by exact H.
  lia.
Qed.

(** Addresses after removing entry [idx]: unchanged before it, shifted down
    by its size after it. *)
Lemma sum_take_remove_index (idx : nat) (objs : list ObjectData) (k : nat) :
  (idx < length objs)%nat ->
  sum_sizes (take k (remove_index idx objs)) =
  if Nat.ltb k idx then sum_sizes (take k objs)
  else sum_sizes (take (S k) objs) - obj_size (nth idx objs dflt_ObjectData).
Proof.
  intros H. unfold remove_index. destruct (Nat.ltb_spec k idx).
  - rewrite take_app_le by (rewrite length_take; lia). rewrite take_take.
    f_equal. f_equal. lia.
  - rewrite take_app, length_take, take_ge by (rewrite length_take; lia).
    replace (min idx (length objs)) with idx by lia.
    replace (S k) with (S idx + (k - idx))%nat by lia.
    rewrite <- take_take_drop, !sum_sizes_app, sum_sizes_take_S by exact H.
    lia.
Qed.

(** ** Compaction: [copyBytes] and [moveRecords] *)

Lemma shifted_empty (f : Z -> Z) (lo hi d b : Z) : hi <= lo -> shifted f lo hi d b = f b.
Proof.
  intros H. unfold shifted. destruct (Z.leb_spec lo b), (Z.ltb_spec b hi); simpl; try lia; reflexivity.
Qed.

Lemma copyBytes_spec (oldA newA d lo : Z) (f : Z -> Z) (k : nat) (j : Z) (e : EEPROM_t) :
  oldA = newA + d -> 0 <= d -> 0 <= j -> 0 <= newA -> lo <= newA + j ->
  oldA + j + Z.of_nat k <= 65536 ->
  (forall b, 0 <= f b < 256) ->
  (forall b, rd e b = shifted f lo (newA + j) d b) ->
  forall b, rd (copyBytes oldA newA j k e).2 b = shifted f lo (newA + j + Z.of_nat k) d b.
Proof.
  revert j e. induction k as [|k IH]; intros j e Ho Hd Hj Hn Hlo Hhi Hf He.
  - simpl. intros b. rewrite He. f_equal. lia.
  - simpl copyBytes. intros b. rewrite !bind_unfold. cbn [EEPROM_read fst snd].
    rewrite !u16_id by lia.
    replace (newA + j + Z.of_nat (S k)) with (newA + (j + 1) + Z.of_nat k) by lia.
    apply IH; try lia; [exact Hf|].
    intros b'. rewrite rd_update, !He.
    unfold shifted. subst oldA.
    destruct (Z.leb_spec lo (newA + d + j)), (Z.ltb_spec (newA + d + j) (newA + j));
      simpl; try lia.
    destruct (Z.eqb_spec (newA + j) b'), (Z.leb_spec lo b'), (Z.ltb_spec b' (newA + j)),
             (Z.ltb_spec b' (newA + (j + 1))); simpl; try lia; try reflexivity;
      subst b'; rewrite u8_id by apply Hf; f_equal; lia.
Qed.

Lemma sum_take_mono (objs : list ObjectData) (j1 j2 : nat) :
  fields_ok objs -> (j1 <= j2)%nat ->
  sum_sizes (take j1 objs) <= sum_sizes (take j2 objs).
Proof.
  intros Hf H. replace j2 with (j1 + (j2 - j1))%nat by lia.
  rewrite <- take_take_drop, sum_sizes_app.
  pose proof (sum_sizes_nonneg (take (j2 - j1) (drop j1 objs))
                (fields_ok_take _ _ (fields_ok_drop _ _ Hf))). lia.
Qed.

Section Compaction.

Variables (objs : list ObjectData) (idx : nat).
Hypothesis idx_lt : (idx < length objs)%nat.
Hypothesis objs_fields : fields_ok objs.
Hypothesis objs_fit : sum_sizes objs <= 65535.

Let A (j : nat) : Z := sum_sizes (take j objs).
Let d : Z := obj_size (nth idx objs dflt_ObjectData).
Let upd : list ObjectData := remove_index idx objs.

Lemma A_le (j : nat) : A j <= sum_sizes objs.
Proof. apply sum_sizes_take_le, objs_fields. Qed.

Lemma A_nonneg (j : nat) : 0 <= A j.
Proof. apply sum_sizes_nonneg, fields_ok_take, objs_fields. Qed.

Lemma A_mono (j1 j2 : nat) : (j1 <= j2)%nat -> A j1 <= A j2.
Proof. apply sum_take_mono, objs_fields. Qed.

Lemma A_S (j : nat) : (j < length objs)%nat ->
  A (S j) = A j + obj_size (nth j objs dflt_ObjectData).
Proof. apply sum_sizes_take_S. Qed.

Lemma moveRecords_spec (f : Z -> Z) (k i : nat) (e : EEPROM_t) :
  (idx <= i)%nat -> (S i + k <= length objs)%nat ->
  (forall b, 0 <= f b < 256) ->
  (forall b, rd e b = shifted f (A idx) (A (S i) - d) d b) ->
  forall b, rd (moveRecords objs upd i k e).2 b = shifted f (A idx) (A (S i + k) - d) d b.
Proof.
  revert i e. induction k as [|k IH]; intros i e Hi Hk Hf He.
  - simpl. intros b. rewrite He. f_equal. f_equal. f_equal. lia.
  - simpl moveRecords. intros b. rewrite bind_unfold.
    replace (S i + S k)%nat with (S (S i) + k)%nat by lia.
    apply IH; [lia|lia|exact Hf|].
    assert (HSi : A (S i) = A idx + d + sum_sizes (take (i - idx) (drop (S idx) objs))).
    { unfold A, d. replace (S i) with (S idx + (i - idx))%nat by lia.
      rewrite <- take_take_drop, sum_sizes_app, sum_sizes_take_S by exact idx_lt. lia. }
    pose proof (sum_sizes_nonneg (take (i - idx) (drop (S idx) objs))
                  (fields_ok_take _ _ (fields_ok_drop _ _ objs_fields))).
    assert (Hold : getAddress_objects objs (S i) = A (S i)).
    { unfold getAddress_objects. apply u16_id. pose proof (A_le (S i)). pose proof (A_nonneg (S i)).
      unfold A in *. lia. }
    pose proof (fields_ok_nth objs idx objs_fields) as [_ Hdr]. fold d in Hdr.
    assert (Hnew : getAddress_objects upd i = A (S i) - d).
    { unfold getAddress_objects, upd. rewrite sum_take_remove_index by exact idx_lt.
      destruct (Nat.ltb_spec i idx); [lia|]. fold d.
      pose proof (A_mono idx (S i) ltac:(lia)). pose proof (A_nonneg idx).
      pose proof (A_le (S i)). unfold A in *. apply u16_id. lia. }
    assert (Hsz : obj_size (nth i upd dflt_ObjectData) = obj_size (nth (S i) objs dflt_ObjectData)).
    { unfold upd. rewrite nth_remove_index by exact idx_lt.
      destruct (Nat.ltb_spec i idx); [lia|reflexivity]. }
    assert (HSS : A (S (S i)) = A (S i) + obj_size (nth (S i) objs dflt_ObjectData))
      by (apply A_S; lia).
    pose proof (fields_ok_nth objs (S i) objs_fields) as [_ Hszr].
    pose proof (A_le (S (S i))). pose proof (A_nonneg idx).
    pose proof (A_mono idx (S i) ltac:(lia)).
    rewrite Hold, Hnew, Hsz.
    intros b'.
    rewrite (copyBytes_spec (A (S i)) (A (S i) - d) d (A idx) f) with (j := 0); try lia.
    + f_equal. rewrite Z2Nat.id by lia. lia.
    + exact Hf.
    + intros b''. rewrite He. f_equal. lia.
Qed.

End Compaction.

(** ** [remove] on a well-formed store *)

Lemma holds_count_lt (L : Z) (e : EEPROM_t) (objects : list ObjectData) :
  holds L e objects -> (length objects <= 255)%nat.
Proof.
  intros H. pose proof (holds_bytes _ _ _ H (L - 1)). rewrite (holds_count _ _ _ H) in H0. lia.
Qed.

Lemma holds_sum_fit (L : Z) (e : EEPROM_t) (objects : list ObjectData) :
  holds L e objects -> sum_sizes objects <= 65535.
Proof.
  intros H. destruct H as [HL _ _ Hcap _ _]. unfold sizeof_ObjectData in *. lia.
Qed.

Lemma remove_present (L : Z) (e : EEPROM_t) (objects : list ObjectData) (id : Z) (idx : nat) :
  holds L e objects -> find_index id objects = Some idx ->
  let e' := (remove L id e).2 in
  let d := obj_size (nth idx objects dflt_ObjectData) in
  holds L e' (remove_index idx objects) /\
  forall b, b < dir_start L (Z.of_nat (length (remove_index idx objects))) ->
    rd e' b = shifted (rd e) (sum_sizes (take idx objects))
                      (sum_sizes objects - d) d b.
Proof.
  intros H F. cbv zeta.
  destruct (find_index_Some _ _ _ F) as (Hlt & _ & _).
  pose proof (holds_count_lt _ _ _ H) as Hn.
  pose proof (holds_sum_fit _ _ _ H) as Hfit.
  pose proof (holds_fields _ _ _ H) as Hf.
  unfold remove. rewrite bind_unfold, (holds_getObjectAmount _ _ _ H). cbn [fst snd].
  rewrite bind_unfold, (holds_loadObjectData _ _ _ H). cbn [fst snd]. rewrite F.
  rewrite bind_unfold.
  set (e1 := (moveRecords objects (remove_index idx objects) idx
               (Z.to_nat (Z.of_nat (length objects) - 1) - idx) e).2).
  assert (He1 : forall b, rd e1 b = shifted (rd e) (sum_sizes (take idx objects))
            (sum_sizes objects - obj_size (nth idx objects dflt_ObjectData))
            (obj_size (nth idx objects dflt_ObjectData)) b).
  { intros b. unfold e1.
    rewrite (moveRecords_spec objects idx Hlt Hf Hfit (rd e)); [| lia | lia | apply (holds_bytes _ _ _ H) |].
    - f_equal. rewrite take_ge by lia. reflexivity.
    - intros b'. rewrite shifted_empty; [reflexivity|]. rewrite sum_sizes_take_S by exact Hlt. lia. }
  assert (Hlen : Z.of_nat (length objects) - 1 = Z.of_nat (length (remove_index idx objects)))
    by (rewrite length_remove_index by exact Hlt; lia).
  rewrite Hlen.
  pose proof (fields_ok_nth objects idx Hf) as [_ Hd].
  destruct (saveObjectData_holds L (remove_index idx objects) e1) as [H1 H2].
  - apply keeps_bytes_moveRecords, (holds_bytes _ _ _ H).
  - apply (holds_length _ _ _ H).
  - apply fields_ok_remove_index, Hf.
  - rewrite length_remove_index by exact Hlt. lia.
  - rewrite sum_sizes_remove_index, length_remove_index by exact Hlt.
    pose proof (holds_capacity _ _ _ H). unfold sizeof_ObjectData in *. lia.
  - split; [exact H1|]. intros b Hb. rewrite H2 by exact Hb. apply He1.
Qed.

Lemma remove_absent (L : Z) (e : EEPROM_t) (objects : list ObjectData) (id : Z) :
  holds L e objects -> find_index id objects = None -> remove L id e = (tt, e).
Proof.
  intros H F. unfold remove. rewrite bind_unfold, (holds_getObjectAmount _ _ _ H). cbn [fst snd].
  rewrite bind_unfold, (holds_loadObjectData _ _ _ H). cbn [fst snd]. rewrite F. reflexivity.
Qed.

Lemma holds_check_sound (L : Z) (e : EEPROM_t) (objects : list ObjectData) :
  holds_check L e objects = true -> holds L e objects.
Proof.
  unfold holds_check. intros H.
  repeat match goal with
  | H : (_ && _) = true |- _ => apply andb_prop in H as [? ?]
  end.
  repeat match goal with
  | H : bool_decide _ = true |- _ => apply bool_decide_eq_true in H
  end.
  constructor.
  - assumption.
  - intros a. unfold rd. destruct (cells e !! a) as [v|] eqn:Ea; simpl; [|lia].
    match goal with Hm : map_Forall _ _ |- _ =>
      exact (map_Forall_lookup_1 _ _ _ _ Hm Ea) end.
  - apply Z.eqb_eq. assumption.
  - apply Z.leb_le. assumption.
  - unfold fields_ok. apply Forall_forall. intros o Ho. apply list_elem_of_In in Ho.
    match goal with H : forallb _ objects = true |- _ =>
      rewrite forallb_forall in H; specialize (H o Ho); cbv beta in H;
      apply bool_decide_eq_true in H; exact H end.
  - intros i o Hi. cbv zeta.
    pose proof (lookup_lt_Some _ _ _ Hi).
    match goal with H : forallb _ (seq 0 _) = true |- _ =>
      rewrite forallb_forall in H; specialize (H i ltac:(apply in_seq; lia)) end.
    rewrite (nth_lookup_Some _ _ _ _ Hi) in *.
    repeat match goal with
    | H : (_ && _) = true |- _ => apply andb_prop in H as [? ?]
    end.
    repeat match goal with
    | H : Z.eqb _ _ = true |- _ => apply Z.eqb_eq in H
    end. auto.
Qed.

Lemma getAddress_objects_fit (objects : list ObjectData) (k : nat) :
  fields_ok objects -> sum_sizes objects <= 65535 ->
  getAddress_objects objects k = sum_sizes (take k objects).
Proof.
  intros Hf Hs. unfold getAddress_objects. apply u16_id.
  pose proof (sum_sizes_take_le objects k Hf).
  pose proof (sum_sizes_nonneg _ (fields_ok_take objects k Hf)). lia.
Qed.

Lemma record_bytes_ext (e e' : EEPROM_t) (objs objs' : list ObjectData) (k k' : nat) :
  obj_size (nth k objs' dflt_ObjectData) = obj_size (nth k' objs dflt_ObjectData) ->
  (forall j, 0 <= j < obj_size (nth k' objs dflt_ObjectData) ->
     rd e' (getAddress_objects objs' k + j) = rd e (getAddress_objects objs k' + j)) ->
  record_bytes e' objs' k = record_bytes e objs k'.
Proof.
  intros Hs Hj. unfold record_bytes. rewrite Hs.
  apply map_ext_in. intros j Hin. apply list_elem_of_In, elem_of_seqZ in Hin.
  apply Hj. lia.
Qed.

(** ** Claims *)

(** C4. [remove id] of a present id deletes its entry: the entries after it
    move down one directory slot, the counter drops by one, and every later
    record slides left by exactly the size of the removed record (earlier
    records stay put), so each remaining record keeps its bytes at its new
    prefix-sum address. [remove] of an absent id changes nothing. *)
Theorem remove_compacts (L : Z) (e : EEPROM_t) (objects : list ObjectData) (id : Z) :
  holds L e objects ->
  match find_index id objects with
  | Some idx =>
      let e' := (remove L id e).2 in
      let objects' := remove_index idx objects in
      let removed_size := obj_size (nth idx objects dflt_ObjectData) in
      holds L e' objects' /\
      rd e' (L - 1) = Z.of_nat (length objects) - 1 /\
      (forall k, (k < length objects')%nat ->
         let k_old := if Nat.ltb k idx then k else S k in
         nth k objects' dflt_ObjectData = nth k_old objects dflt_ObjectData /\
         getAddress_objects objects' k =
           (if Nat.ltb k idx then getAddress_objects objects k
            else getAddress_objects objects k_old - removed_size) /\
         record_bytes e' objects' k = record_bytes e objects k_old)
  | None => remove L id e = (tt, e)
  end.
Proof.
  intros H. destruct (find_index id objects) as [idx|] eqn:F; [|exact (remove_absent _ _ _ _ H F)].
  cbv zeta. destruct (find_index_Some _ _ _ F) as (Hlt & _ & _).
  destruct (remove_present L e objects id idx H F) as [H' Hrd]. cbv zeta in Hrd.
  pose proof (holds_fields _ _ _ H) as Hf.
  pose proof (holds_sum_fit _ _ _ H) as Hfit.
  pose proof (holds_capacity _ _ _ H) as Hcap.
  pose proof (fields_ok_remove_index idx objects Hf) as Hf'.
  pose proof (fields_ok_nth objects idx Hf) as [_ Hd].
  split; [exact H'|]. split.
  { rewrite (holds_count _ _ _ H'), length_remove_index by exact Hlt. lia. }
  intros k Hk. rewrite length_remove_index in Hk by exact Hlt.
  assert (Hnth : nth k (remove_index idx objects) dflt_ObjectData =
                 nth (if Nat.ltb k idx then k else S k) objects dflt_ObjectData)
    by (apply nth_remove_index, Hlt).
  assert (Hfit' : sum_sizes (remove_index idx objects) <= 65535)
    by (rewrite sum_sizes_remove_index by exact Hlt; lia).
  assert (Hadr : getAddress_objects (remove_index idx objects) k =
            (if Nat.ltb k idx then getAddress_objects objects k
             else getAddress_objects objects (S k) - obj_size (nth idx objects dflt_ObjectData))).
  { rewrite !getAddress_objects_fit by assumption.
    rewrite sum_take_remove_index by exact Hlt. destruct (Nat.ltb k idx); reflexivity. }
  split; [exact Hnth|]. split; [destruct (Nat.ltb k idx); exact Hadr|].
  apply record_bytes_ext; [rewrite Hnth; reflexivity|].
  intros j Hj. rewrite Hadr.
  rewrite !getAddress_objects_fit by assumption.
  pose proof (sum_sizes_take_S objects) as AS.
  pose proof (fun j1 j2 => sum_take_mono objects j1 j2 Hf) as AM.
  pose proof (fun j => sum_sizes_take_le objects j Hf) as AL.
  unfold sizeof_ObjectData in *.
  rewrite Hrd.
  2:{ rewrite length_remove_index by exact Hlt. unfold dir_start, sizeof_ObjectData.
      destruct (Nat.ltb_spec k idx).
      - pose proof (AS k ltac:(lia)). pose proof (AL (S k)). lia.
      - pose proof (AS (S k) ltac:(lia)). pose proof (AL (S (S k))). lia. }
  unfold shifted. destruct (Nat.ltb_spec k idx).
  - pose proof (AS k ltac:(lia)). pose proof (AM (S k) idx ltac:(lia)).
    destruct (Z.leb_spec (sum_sizes (take idx objects)) (sum_sizes (take k objects) + j)); simpl; [lia|].
    reflexivity.
  - pose proof (AS (S k) ltac:(lia)). pose proof (AS idx Hlt). pose proof (AM (S idx) (S k) ltac:(lia)).
    pose proof (AL (S (S k))).
    destruct (Z.leb_spec (sum_sizes (take idx objects))
               (sum_sizes (take (S k) objects) - obj_size (nth idx objects dflt_ObjectData) + j)),
             (Z.ltb_spec (sum_sizes (take (S k) objects) - obj_size (nth idx objects dflt_ObjectData) + j)
               (sum_sizes objects - obj_size (nth idx objects dflt_ObjectData))); simpl; try lia.
    f_equal. lia.
Qed.

(** ** Read-only operations *)

Lemma getObjectAmount_readonly (L : Z) (e : EEPROM_t) : (getObjectAmount L e).2 = e.
Proof. reflexivity. Qed.

Lemma loadObjectData_readonly (L n : Z) (e : EEPROM_t) : (loadObjectData L n e).2 = e.
Proof. apply loadObjects_readonly. Qed.

(** Unfold the prologue of a read-only query on any store. *)
Ltac prologue_readonly :=
  rewrite bind_unfold, getObjectAmount_readonly, bind_unfold, loadObjectData_readonly.

Lemma exists_readonly (L id : Z) (e : EEPROM_t) : (exists_ L id e).2 = e.
Proof.
  unfold exists_. prologue_readonly. destruct (find_index _ _); reflexivity.
Qed.

Lemma getObjectData_readonly (L id : Z) (e : EEPROM_t) : (getObjectData L id e).2 = e.
Proof.
  unfold getObjectData. prologue_readonly. destruct (find_index _ _); reflexivity.
Qed.

Lemma getAddress_readonly (L id : Z) (e : EEPROM_t) : (getAddress L id e).2 = e.
Proof.
  unfold getAddress. prologue_readonly. destruct (find_index _ _); reflexivity.
Qed.

Lemma load_readonly (L id : Z) (e : EEPROM_t) : (load L id e).2 = e.
Proof.
  unfold load. prologue_readonly. destruct (find_index _ _); [|reflexivity].
  rewrite bind_unfold, readBytes_spec. reflexivity.
Qed.

(** A store that agrees with a well-formed one from the end of the data
    region on holds the same directory. *)
Lemma holds_frame (L : Z) (e e' : EEPROM_t) (objects : list ObjectData) :
  holds L e objects -> bytes_ok e' ->
  (forall b, sum_sizes objects <= b -> rd e' b = rd e b) ->
  holds L e' objects.
Proof.
  intros H Hb Hfr. destruct H as [HL _ Hc Hcap Hf He].
  unfold sizeof_ObjectData in *.
  constructor; auto.
  - rewrite Hfr by lia. exact Hc.
  - intros i o Hi. pose proof (lookup_lt_Some _ _ _ Hi). cbv zeta.
    unfold dir_start, sizeof_ObjectData in *.
    rewrite !Hfr by lia. apply (He i o Hi).
Qed.

Lemma load_present (L : Z) (e : EEPROM_t) (objects : list ObjectData) (id : Z) (idx : nat) :
  holds L e objects -> find_index id objects = Some idx ->
  load L id e = (Some (record_bytes e objects idx), e).
Proof.
  intros H F. pose proof (holds_fields _ _ _ H) as Hf.
  pose proof (holds_sum_fit _ _ _ H) as Hfit.
  destruct (find_index_Some _ _ _ F) as (Hlt & _ & _).
  unfold load. rewrite bind_unfold, (holds_getObjectAmount _ _ _ H). cbn [fst snd].
  rewrite bind_unfold, (holds_loadObjectData _ _ _ H). cbn [fst snd]. rewrite F.
  rewrite bind_unfold, readBytes_spec. cbn [fst snd ret]. unfold record_bytes.
  pose proof (fields_ok_nth objects idx Hf) as [_ Hs].
  rewrite Z2Nat.id by lia. do 2 f_equal. apply map_ext_in. intros j Hj.
  apply list_elem_of_In, elem_of_seqZ in Hj.
  rewrite getAddress_objects_fit by assumption. rewrite u16_id; [reflexivity|].
  pose proof (sum_sizes_take_S objects idx Hlt).
  pose proof (sum_sizes_take_le objects (S idx) Hf).
  pose proof (sum_sizes_nonneg _ (fields_ok_take objects idx Hf)). lia.
Qed.

Lemma map_nth_seqZ (src : list Z) (m : Z) :
  map (fun j => nth (Z.to_nat (j - m)) src 0) (seqZ m (Z.of_nat (length src))) = src.
Proof.
  revert m. induction src as [|x xs IH]; intros m; [reflexivity|].
  simpl length. rewrite Nat2Z.inj_succ, seqZ_cons by lia. simpl map.
  rewrite Z.sub_diag. simpl nth. f_equal.
  replace (Z.pred (Z.succ (Z.of_nat (length xs)))) with (Z.of_nat (length xs)) by lia.
  rewrite <- (IH (Z.succ m)) at 2. apply map_ext_in. intros j Hj.
  apply list_elem_of_In, elem_of_seqZ in Hj.
  replace (Z.to_nat (j - m)) with (S (Z.to_nat (j - Z.succ m))) by lia. reflexivity.
Qed.

(** [save] of an existing id with its stored size: the in-place branch. *)
Lemma save_same_size_unfold (L : Z) (e : EEPROM_t) (objects : list ObjectData)
    (ods : bool) (id : Z) (idx : nat) (src : list Z) (sz : Z) :
  holds L e objects -> find_index id objects = Some idx ->
  obj_size (nth idx objects dflt_ObjectData) = sz ->
  save L ods id src sz e =
  (true, (ramToEEPROM (getAddress_objects objects idx) src sz e).2).
Proof.
  intros H F Hs. unfold save. rewrite bind_unfold, (holds_getObjectAmount _ _ _ H). cbn [fst snd].
  rewrite bind_unfold, (holds_loadObjectData _ _ _ H). cbn [fst snd]. rewrite F.
  rewrite Hs, Z.eqb_refl, bind_unfold. reflexivity.
Qed.

(** [save] of an existing id with another size when resizing is off. *)
Lemma save_mismatch_unfold (L : Z) (e : EEPROM_t) (objects : list ObjectData)
    (id : Z) (idx : nat) (src : list Z) (sz : Z) :
  holds L e objects -> find_index id objects = Some idx ->
  obj_size (nth idx objects dflt_ObjectData) <> sz ->
  save L false id src sz e = (false, e).
Proof.
  intros H F Hs. unfold save. rewrite bind_unfold, (holds_getObjectAmount _ _ _ H). cbn [fst snd].
  rewrite bind_unfold, (holds_loadObjectData _ _ _ H). cbn [fst snd]. rewrite F.
  destruct (Z.eqb_spec (obj_size (nth idx objects dflt_ObjectData)) sz); [contradiction|].
  reflexivity.
Qed.

(** Records lie between consecutive prefix sums. *)
Lemma record_disjoint (objects : list ObjectData) (k idx : nat) (j : Z) :
  fields_ok objects -> k <> idx -> (idx < length objects)%nat ->
  0 <= j < obj_size (nth k objects dflt_ObjectData) ->
  sum_sizes (take k objects) + j < sum_sizes (take idx objects) \/
  sum_sizes (take (S idx) objects) <= sum_sizes (take k objects) + j.
Proof.
  intros Hf Hne Hlt Hj.
  destruct (Nat.lt_ge_cases k (length objects)) as [Hk|Hk].
  - pose proof (sum_sizes_take_S objects k Hk).
    destruct (Nat.lt_ge_cases k idx).
    + left. pose proof (sum_take_mono objects (S k) idx Hf ltac:(lia)). lia.
    + right. pose proof (sum_take_mono objects (S idx) k Hf ltac:(lia)). lia.
  - rewrite nth_overflow in Hj by lia. simpl in Hj. lia.
Qed.

(** C7. [save] on an existing id with its stored size returns true and
    rewrites only that record, in place, at its computed address: every
    physical write lands inside the record and changes the cell it writes
    ([EEPROM.update]); the directory, the counter and every other record
    are untouched; saving the same bytes again writes nothing. *)
Theorem save_same_size_in_place (L : Z) (e : EEPROM_t) (objects : list ObjectData)
    (ods : bool) (id : Z) (idx : nat) (src : list Z) :
  holds L e objects -> find_index id objects = Some idx ->
  Z.of_nat (length src) = obj_size (nth idx objects dflt_ObjectData) ->
  Forall (fun v => 0 <= v < 256) src ->
  let sz := obj_size (nth idx objects dflt_ObjectData) in
  let address := getAddress_objects objects idx in
  let e1 := (save L ods id src sz e).2 in
  (save L ods id src sz e).1 = true /\
  holds L e1 objects /\
  record_bytes e1 objects idx = src /\
  (forall k, k <> idx -> record_bytes e1 objects k = record_bytes e objects k) /\
  (forall b, b < address \/ address + sz <= b -> rd e1 b = rd e b) /\
  (exists ws, wear e1 = ws ++ wear e /\
     forall a, In a ws -> address <= a < address + sz /\ rd e a <> rd e1 a) /\
  save L ods id src sz e1 = (true, e1).
Proof.
  intros H F Hlen Hsrc. cbv zeta.
  set (sz := obj_size (nth idx objects dflt_ObjectData)) in *.
  pose proof (holds_fields _ _ _ H) as Hf.
  pose proof (holds_sum_fit _ _ _ H) as Hfit.
  destruct (find_index_Some _ _ _ F) as (Hlt & _ & _).
  pose proof (fields_ok_nth objects idx Hf) as [_ Hsz]. fold sz in Hsz.
  pose proof (sum_sizes_take_S objects idx Hlt) as HS. fold sz in HS.
  pose proof (sum_sizes_take_le objects (S idx) Hf).
  pose proof (sum_sizes_nonneg _ (fields_ok_take objects idx Hf)).
  rewrite (save_same_size_unfold L e objects ods id idx src sz H F eq_refl).
  cbn [fst snd].
  set (address := getAddress_objects objects idx).
  assert (Ha : address = sum_sizes (take idx objects))
    by (apply getAddress_objects_fit; assumption).
  unfold ramToEEPROM.
  destruct (ramToEEPROM_loop_spec address src 0 (Z.to_nat sz) e) as [Hrd Hw]; [lia|lia|].
  set (e1 := (ramToEEPROM_loop address src 0 (Z.to_nat sz) e).2) in *.
  rewrite Z2Nat.id in Hrd, Hw by lia.
  assert (Hin : forall j, 0 <= j < sz -> rd e1 (address + j) = nth (Z.to_nat j) src 0).
  { intros j Hj. rewrite Hrd.
    destruct (Z.leb_spec (address + 0) (address + j)), (Z.ltb_spec (address + j) (address + 0 + sz));
      simpl; try lia.
    replace (Z.to_nat (address + j - address - 0)) with (Z.to_nat j) by lia.
    apply u8_id. destruct (nth_lookup_or_length src (Z.to_nat j) 0) as [E|E]; [|lia].
    eapply Forall_lookup_1 in Hsrc; [exact Hsrc|exact E]. }
  assert (Hout : forall b, b < address \/ address + sz <= b -> rd e1 b = rd e b).
  { intros b Hb. rewrite Hrd.
    destruct (Z.leb_spec (address + 0) b), (Z.ltb_spec b (address + 0 + sz)); simpl; try lia;
      reflexivity. }
  assert (Hh1 : holds L e1 objects).
  { apply (holds_frame L e); [exact H| |].
    - apply keeps_bytes_ramToEEPROM_loop, (holds_bytes _ _ _ H).
    - intros b Hb. apply Hout. lia. }
  split; [reflexivity|]. split; [exact Hh1|]. split.
  { unfold record_bytes. fold address. fold sz. rewrite <- Hlen.
    rewrite <- (map_nth_seqZ src 0) at 2. apply map_ext_in. intros j Hj.
    apply list_elem_of_In, elem_of_seqZ in Hj. rewrite Hin by lia. f_equal. f_equal. lia. }
  split.
  { intros k Hk. apply record_bytes_ext; [reflexivity|]. intros j Hj.
    apply Hout. rewrite getAddress_objects_fit by assumption.
    pose proof (record_disjoint objects k idx j Hf Hk Hlt Hj). lia. }
  split; [exact Hout|]. split.
  { destruct Hw as [ws [Hws Hall]]. exists ws. split; [exact Hws|].
    intros a Ha'. destruct (Hall a Ha') as [Hr Hne]. split; [lia|exact Hne]. }
  rewrite (save_same_size_unfold L e1 objects ods id idx src sz Hh1 F eq_refl).
  f_equal. unfold ramToEEPROM. rewrite ramToEEPROM_loop_noop; [reflexivity|lia|lia|].
  intros j Hj. rewrite Z.add_0_r, Hin by lia. rewrite u8_id.
  - f_equal. lia.
  - destruct (nth_lookup_or_length src j 0) as [E|E]; [|lia].
    eapply Forall_lookup_1 in Hsrc; [exact Hsrc|exact E].
Qed.

(** C6. With resizing off, [save] of an existing id with a different size
    returns false and leaves the store exactly as it was (cells and write
    log); [load] of that id still yields the original record, of the
    original size. *)
Theorem save_size_mismatch_rejected (L : Z) (e : EEPROM_t) (objects : list ObjectData)
    (id : Z) (idx : nat) (src : list Z) (sz : Z) :
  holds L e objects -> find_index id objects = Some idx ->
  obj_size (nth idx objects dflt_ObjectData) <> sz ->
  let e' := (save L false id src sz e).2 in
  save L false id src sz e = (false, e) /\
  load L id e' = (Some (record_bytes e objects idx), e') /\
  Z.of_nat (length (record_bytes e objects idx)) = obj_size (nth idx objects dflt_ObjectData).
Proof.
  intros H F Hne. cbv zeta. rewrite (save_mismatch_unfold L e objects id idx src sz H F Hne).
  cbn [snd]. split; [reflexivity|]. split; [apply load_present; assumption|].
  unfold record_bytes. rewrite length_map, length_seqZ.
  pose proof (fields_ok_nth objects idx (holds_fields _ _ _ H)). lia.
Qed.

(** C10. The queries [exists], [getObjectData], [getAddress] and [load]
    never write: the store (cells and write log) is the same afterwards. *)
Theorem queries_write_nothing (L id : Z) (e : EEPROM_t) :
  (exists_ L id e).2 = e /\ (getObjectData L id e).2 = e /\
  (getAddress L id e).2 = e /\ (load L id e).2 = e.
Proof.
  split; [apply exists_readonly|]. split; [apply getObjectData_readonly|].
  split; [apply getAddress_readonly|apply load_readonly].
Qed.

Lemma exists_present (L : Z) (e : EEPROM_t) (objects : list ObjectData) (id : Z) (idx : nat) :
  holds L e objects -> find_index id objects = Some idx -> exists_ L id e = (true, e).
Proof.
  intros H F. unfold exists_. rewrite bind_unfold, (holds_getObjectAmount _ _ _ H). cbn [fst snd].
  rewrite bind_unfold, (holds_loadObjectData _ _ _ H). cbn [fst snd]. rewrite F. reflexivity.
Qed.

(** After [reset] the counter reads 0, so no id is found. *)
Lemma reset_exists_false (L id : Z) (e : EEPROM_t) :
  exists_ L id (reset L e).2 = (false, (reset L e).2).
Proof.
  unfold exists_, reset. rewrite bind_unfold. unfold getObjectAmount at 1, EEPROM_read at 1.
  cbn [fst snd]. rewrite rd_update, Z.eqb_refl. reflexivity.
Qed.

(** C2 (as the code behaves). With resizing on, [save] of an existing id
    with another size checks the space before removing anything: when the
    computed total exceeds the capacity it returns false and the store is
    exactly as before; the id is still present. *)
Theorem save_resize_checks_space_first (L : Z) (e : EEPROM_t) (objects : list ObjectData)
    (id : Z) (idx : nat) (src : list Z) (sz : Z) :
  holds L e objects -> find_index id objects = Some idx ->
  obj_size (nth idx objects dflt_ObjectData) <> sz ->
  L < resize_totalSize objects idx (Z.of_nat (length objects)) sz ->
  save L true id src sz e = (false, e) /\ exists_ L id e = (true, e).
Proof.
  intros H F Hne Hbig. split; [|exact (exists_present L e objects id idx H F)].
  unfold save. rewrite bind_unfold, (holds_getObjectAmount _ _ _ H). cbn [fst snd].
  rewrite bind_unfold, (holds_loadObjectData _ _ _ H). cbn [fst snd]. rewrite F.
  destruct (Z.eqb_spec (obj_size (nth idx objects dflt_ObjectData)) sz); [contradiction|].
  destruct (Z.leb_spec (resize_totalSize objects idx (Z.of_nat (length objects)) sz) L);
    [lia|reflexivity].
Qed.

(** C8. [reset] updates only the last cell (the counter) to 0, physically
    writing at most that one cell; afterwards no id exists. *)
Theorem reset_writes_only_count (L : Z) (e : EEPROM_t) :
  1 <= L <= 65535 ->
  let e' := (reset L e).2 in
  rd e' (L - 1) = 0 /\
  (forall b, b <> L - 1 -> rd e' b = rd e b) /\
  (wear e' = wear e \/ wear e' = (L - 1) :: wear e) /\
  (forall id, exists_ L id e' = (false, e')).
Proof.
  intros HL. cbv zeta.
  assert (Hc : count_address L = L - 1) by (unfold count_address; apply u16_id; lia).
  split; [unfold reset; rewrite Hc, rd_update, Z.eqb_refl; reflexivity|].
  split; [intros b Hb; unfold reset; rewrite Hc, rd_update; zeqb_cases; reflexivity|].
  split; [|intros id; apply reset_exists_false].
  unfold reset, EEPROM_update, EEPROM_write. rewrite Hc.
  destruct (_ =? _); [left|right]; reflexivity.
Qed.

(** C9. [isValid] compares against a default of 0 when the id is absent or
    its object is not 2 bytes long, without touching the store; so on a
    freshly reset store [isValid(0, id)] holds and [setup(0, id)] returns
    false and does nothing. *)
Theorem isValid_defaults_to_zero (L : Z) (e : EEPROM_t) (id uniqueInt : Z) (ods : bool) :
  (exists_ L id e).1 = false \/ obj_size (getObjectData L id e).1 <> 2 ->
  isValid L uniqueInt id e = (Z.eqb 0 uniqueInt, e) /\
  (let e' := (reset L e).2 in
   isValid L 0 id e' = (true, e') /\ setup L ods 0 id e' = (false, e')).
Proof.
  intros Hpre. split.
  - unfold isValid. rewrite bind_unfold, exists_readonly.
    destruct (exists_ L id e).1 eqn:Ex.
    + destruct Hpre as [Hpre|Hpre]; [discriminate|].
      rewrite bind_unfold, bind_unfold, getObjectData_readonly.
      destruct (Z.eqb_spec (obj_size (getObjectData L id e).1) 2); [contradiction|].
      reflexivity.
    + reflexivity.
  - cbv zeta. set (e' := (reset L e).2).
    assert (Hv : isValid L 0 id e' = (true, e')).
    { unfold isValid. rewrite bind_unfold. unfold e'. rewrite reset_exists_false. reflexivity. }
    split; [exact Hv|]. unfold setup. rewrite bind_unfold, Hv. reflexivity.
Qed.

(** ** Appending a record: the [hasSpace] branch of [save] *)

Lemma save_append_fst (L id : Z) (src : list Z) (sz : Z) (objs : list ObjectData)
    (n : Z) (e : EEPROM_t) :
  (save_append L id src sz objs n e).1 = true.
Proof. unfold save_append. rewrite !bind_unfold. reflexivity. Qed.

(** A [uint8_t] counter of 256 stores 0: the directory is empty. *)
Lemma saveObjectData_wrap (L : Z) (upd : list ObjectData) (e : EEPROM_t) :
  bytes_ok e -> 1 <= L <= 65535 ->
  holds L (saveObjectData L upd 256 e).2 [].
Proof.
  intros Hb HL. unfold saveObjectData. change (u8 256) with 0.
  rewrite bind_unfold. simpl saveObjects. cbn [ret fst snd].
  assert (Hca : count_address L = L - 1) by (unfold count_address; apply u16_id; lia).
  rewrite Hca. constructor.
  - exact HL.
  - apply bytes_ok_update, Hb.
  - rewrite rd_update, Z.eqb_refl. reflexivity.
  - simpl. lia.
  - constructor.
  - intros i o Hi. rewrite lookup_nil in Hi. discriminate.
Qed.

Lemma save_append_holds (L : Z) (e : EEPROM_t) (objects : list ObjectData)
    (id : Z) (src : list Z) (sz : Z) :
  holds L e objects -> 0 <= id < 256 -> 0 <= sz < 65536 ->
  sum_sizes objects + 1 + sizeof_ObjectData * (Z.of_nat (length objects) + 1) + sz <= L ->
  let e' := (save_append L id src sz objects (Z.of_nat (length objects)) e).2 in
  ((length objects < 255)%nat -> holds L e' (objects ++ [mkObjectData id sz])) /\
  (length objects = 255%nat -> holds L e' []).
Proof.
  intros H Hid Hsz Hcap. cbv zeta.
  pose proof (holds_fields _ _ _ H) as Hf.
  pose proof (holds_length _ _ _ H) as HL.
  pose proof (sum_sizes_nonneg _ Hf) as Hs.
  unfold save_append. rewrite !bind_unfold. cbn [ret snd].
  unfold getAddress_objects. rewrite Nat2Z.id, take_app_length, u16_id
    by (unfold sizeof_ObjectData in *; lia).
  set (e1 := (ramToEEPROM (sum_sizes objects) src sz e).2).
  assert (Hb1 : bytes_ok e1)
    by (apply keeps_bytes_ramToEEPROM_loop, (holds_bytes _ _ _ H)).
  split.
  - intros Hn.
    assert (Hlen : Z.of_nat (length objects) + 1 = Z.of_nat (length (objects ++ [mkObjectData id sz])))
      by (rewrite length_app; simpl; lia).
    rewrite Hlen.
    apply (saveObjectData_holds L (objects ++ [mkObjectData id sz]) e1 Hb1 HL).
    + apply Forall_app_2; [exact Hf|]. constructor; [simpl; lia|constructor].
    + rewrite length_app. simpl. lia.
    + rewrite sum_sizes_app, length_app. simpl. unfold sizeof_ObjectData in *. lia.
  - intros Hn. rewrite Hn. apply saveObjectData_wrap; assumption.
Qed.

(** The id lists of the directory after dropping entry [idx]. *)
Lemma remove_index_ids (objects : list ObjectData) (idx : nat) (o : ObjectData) :
  NoDup (map obj_id objects) -> objects !! idx = Some o ->
  NoDup (map obj_id (remove_index idx objects)) /\
  obj_id o ∉ map obj_id (remove_index idx objects).
Proof.
  intros Hnd Ho. rewrite <- (take_drop_middle objects idx o Ho) in Hnd.
  unfold remove_index. rewrite map_app in Hnd |- *. simpl in Hnd.
  apply NoDup_app in Hnd as (H1 & H2 & H3). apply NoDup_cons in H3 as [H3 H4].
  split.
  - apply NoDup_app. split; [exact H1|]. split; [|exact H4].
    intros x Hx1 Hx2. apply (H2 x Hx1). apply elem_of_cons. right. exact Hx2.
  - rewrite elem_of_app. intros [Hx|Hx]; [|contradiction].
    apply (H2 _ Hx). apply elem_of_cons. left. reflexivity.
Qed.

(** The in-place branch of [save] keeps the directory, whatever bytes it
    writes. *)
Lemma save_same_size_holds (L : Z) (e : EEPROM_t) (objects : list ObjectData)
    (ods : bool) (id : Z) (idx : nat) (src : list Z) (sz : Z) :
  holds L e objects -> find_index id objects = Some idx ->
  obj_size (nth idx objects dflt_ObjectData) = sz ->
  holds L (save L ods id src sz e).2 objects.
Proof.
  intros H F Hs. rewrite (save_same_size_unfold L e objects ods id idx src sz H F Hs).
  cbn [snd]. pose proof (holds_fields _ _ _ H) as Hf.
  pose proof (holds_sum_fit _ _ _ H) as Hfit.
  destruct (find_index_Some _ _ _ F) as (Hlt & _ & _).
  pose proof (fields_ok_nth objects idx Hf) as [_ Hsz]. rewrite Hs in Hsz.
  pose proof (sum_sizes_take_S objects idx Hlt) as HS. rewrite Hs in HS.
  pose proof (sum_sizes_take_le objects (S idx) Hf).
  pose proof (sum_sizes_nonneg _ (fields_ok_take objects idx Hf)).
  rewrite getAddress_objects_fit by assumption. unfold ramToEEPROM.
  destruct (ramToEEPROM_loop_spec (sum_sizes (take idx objects)) src 0 (Z.to_nat sz) e)
    as [Hrd _]; [lia|lia|].
  apply (holds_frame L e); [exact H| |].
  - apply keeps_bytes_ramToEEPROM_loop, (holds_bytes _ _ _ H).
  - intros b Hb. rewrite Hrd.
    destruct (Z.leb_spec (sum_sizes (take idx objects) + 0) b),
             (Z.ltb_spec b (sum_sizes (take idx objects) + 0 + Z.of_nat (Z.to_nat sz)));
      simpl; try lia; reflexivity.
Qed.

(** Every [save] whose [totalSize] cannot wrap leaves a well-formed store
    with pairwise distinct ids. *)
Lemma save_preserves (L : Z) (e : EEPROM_t) (objects : list ObjectData)
    (ods : bool) (id : Z) (src : list Z) (sz : Z) :
  holds L e objects -> NoDup (map obj_id objects) ->
  0 <= id < 256 -> 0 <= sz -> sz + L + 4 <= 65536 ->
  exists objects', holds L (save L ods id src sz e).2 objects' /\
                   NoDup (map obj_id objects').
Proof.
  intros H Hnd Hid Hsz0 Hsz.
  pose proof (holds_fields _ _ _ H) as Hf.
  pose proof (holds_capacity _ _ _ H) as Hcap.
  pose proof (holds_count_lt _ _ _ H) as Hn.
  pose proof (sum_sizes_nonneg _ Hf) as Hs.
  unfold sizeof_ObjectData in *.
  destruct (find_index id objects) as [idx|] eqn:F.
  - destruct (find_index_Some _ _ _ F) as (Hlt & Hidx & _).
    destruct (Z.eqb_spec (obj_size (nth idx objects dflt_ObjectData)) sz) as [Es|Ns].
    { exists objects. split; [|exact Hnd].
      apply (save_same_size_holds L e objects ods id idx src sz H F Es). }
    assert (Hunf : save L ods id src sz e =
      if ods then
        if Z.leb (resize_totalSize objects idx (Z.of_nat (length objects)) sz) L then
          bind (remove L id)
            (fun _ => save_append L id src sz (remove_index idx objects)
                        (Z.of_nat (length objects) - 1)) e
        else (false, e)
      else (false, e)).
    { unfold save. rewrite bind_unfold, (holds_getObjectAmount _ _ _ H). cbn [fst snd].
      rewrite bind_unfold, (holds_loadObjectData _ _ _ H). cbn [fst snd]. rewrite F.
      destruct (Z.eqb_spec (obj_size (nth idx objects dflt_ObjectData)) sz); [contradiction|].
      destruct ods; [destruct (_ <=? L)|]; reflexivity. }
    rewrite Hunf.
    destruct ods; [|exists objects; split; assumption].
    destruct (Z.leb_spec (resize_totalSize objects idx (Z.of_nat (length objects)) sz) L)
      as [Hfits|]; [|exists objects; split; assumption].
    rewrite bind_unfold.
    destruct (remove_present L e objects id idx H F) as [H1 _].
    set (upd := remove_index idx objects) in *.
    set (e1 := (remove L id e).2) in *.
    assert (Hlu : length upd = (length objects - 1)%nat)
      by (apply length_remove_index, Hlt).
    assert (Hsu : sum_sizes upd = sum_sizes objects - obj_size (nth idx objects dflt_ObjectData))
      by (apply sum_sizes_remove_index, Hlt).
    pose proof (fields_ok_nth objects idx Hf) as [_ Hd].
    pose proof (sum_sizes_nonneg _ (fields_ok_remove_index idx objects Hf)) as Hs1.
    fold upd in Hs1.
    unfold resize_totalSize, sizeof_ObjectData in Hfits. fold upd in Hfits.
    rewrite u16_id in Hfits by lia.
    replace (Z.of_nat (length objects) - 1) with (Z.of_nat (length upd)) by lia.
    destruct (save_append_holds L e1 upd id src sz H1 Hid) as [Hok _];
      [lia|unfold sizeof_ObjectData; lia|].
    exists (upd ++ [mkObjectData id sz]). split; [apply Hok; lia|].
    destruct (lookup_lt_is_Some_2 objects idx Hlt) as [o Ho].
    rewrite (nth_lookup_Some _ _ _ _ Ho) in Hidx. subst id.
    destruct (remove_index_ids objects idx o Hnd Ho) as [Hnd1 Hnin].
    rewrite map_app. apply NoDup_app. split; [exact Hnd1|]. split; [|apply NoDup_singleton].
    intros x Hx Hx'. apply list_elem_of_singleton in Hx'. subst x. contradiction.
  - assert (Hunf : save L ods id src sz e =
      if Z.leb (append_totalSize objects (Z.of_nat (length objects)) sz) L then
        save_append L id src sz objects (Z.of_nat (length objects)) e
      else (false, e)).
    { unfold save. rewrite bind_unfold, (holds_getObjectAmount _ _ _ H). cbn [fst snd].
      rewrite bind_unfold, (holds_loadObjectData _ _ _ H). cbn [fst snd]. rewrite F.
      destruct (_ <=? L); reflexivity. }
    rewrite Hunf.
    destruct (Z.leb_spec (append_totalSize objects (Z.of_nat (length objects)) sz) L)
      as [Hfits|]; [|exists objects; split; assumption].
    unfold append_totalSize, sizeof_ObjectData in Hfits. rewrite u16_id in Hfits by lia.
    destruct (save_append_holds L e objects id src sz H Hid) as [Hok Hwrap];
      [lia|unfold sizeof_ObjectData; lia|].
    destruct (Nat.lt_ge_cases (length objects) 255) as [Hlt|Hge].
    + exists (objects ++ [mkObjectData id sz]). split; [apply Hok, Hlt|].
      pose proof (find_index_None _ _ F) as Hne.
      rewrite map_app. apply NoDup_app. split; [exact Hnd|]. split; [|apply NoDup_singleton].
      intros x Hx Hx'. apply list_elem_of_singleton in Hx'. subst x.
      apply list_elem_of_In, in_map_iff in Hx as (o & Eo & Ho).
      rewrite Forall_forall in Hne. apply (Hne o); [apply list_elem_of_In, Ho|exact Eo].
    + exists []. split; [apply Hwrap; lia|constructor].
Qed.

Lemma reset_holds (L : Z) (e : EEPROM_t) (objects : list ObjectData) :
  holds L e objects -> holds L (reset L e).2 [].
Proof.
  intros H. pose proof (holds_length _ _ _ H) as HL.
  unfold reset. rewrite (holds_count_address L e objects H). constructor.
  - exact HL.
  - apply bytes_ok_update, (holds_bytes _ _ _ H).
  - rewrite rd_update, Z.eqb_refl. reflexivity.
  - simpl. lia.
  - constructor.
  - intros i o Hi. rewrite lookup_nil in Hi. discriminate.
Qed.

Lemma remove_preserves (L : Z) (e : EEPROM_t) (objects : list ObjectData) (id : Z) :
  holds L e objects -> NoDup (map obj_id objects) ->
  exists objects', holds L (remove L id e).2 objects' /\ NoDup (map obj_id objects').
Proof.
  intros H Hnd. destruct (find_index id objects) as [idx|] eqn:F.
  - destruct (find_index_Some _ _ _ F) as (Hlt & _ & _).
    destruct (lookup_lt_is_Some_2 objects idx Hlt) as [o Ho].
    destruct (remove_present L e objects id idx H F) as [H1 _].
    exists (remove_index idx objects). split; [exact H1|].
    apply (remove_index_ids objects idx o Hnd Ho).
  - exists objects. rewrite (remove_absent L e objects id H F). split; assumption.
Qed.

Lemma run_ops_preserves (L : Z) (ops : list op) (e : EEPROM_t) (objects : list ObjectData) :
  holds L e objects -> NoDup (map obj_id objects) -> Forall (op_ok L) ops ->
  exists objects', holds L (run_ops L ops e).2 objects' /\ NoDup (map obj_id objects').
Proof.
  revert e objects. induction ops as [|o ops IH]; intros e objects H Hnd Hops.
  - exists objects. split; assumption.
  - apply Forall_cons in Hops as [Ho Hops]. simpl run_ops. rewrite bind_unfold.
    assert (Hstep : exists objects1, holds L (run_op L o e).2 objects1 /\
                                     NoDup (map obj_id objects1)).
    { destruct o as [ods id src sz|id|]; simpl in Ho; simpl run_op.
      - rewrite bind_unfold. destruct Ho as (Hid & Hsz0 & Hsz).
        apply (save_preserves L e objects ods id src sz H Hnd Hid Hsz0 Hsz).
      - apply (remove_preserves L e objects id H Hnd).
      - exists []. split; [apply (reset_holds L e objects H)|constructor]. }
    destruct Hstep as (objects1 & H1 & Hnd1).
    apply (IH _ objects1 H1 Hnd1 Hops).
Qed.

(** C3. For a [save] of an absent id of size [sz], the call succeeds
    exactly when the existing records, the counter, the directory grown by
    one entry and the new record fit in the EEPROM; when they do not, it
    returns false and the store (cells and write log) is unchanged. The
    inputs are those the code can receive: a record the caller holds in
    RAM, so the total is below 65536 and the [uint16_t] [totalSize] of
    [save] is exact (the largest AVR has 8 KiB of RAM and a 4 KiB
    EEPROM). *)
Theorem save_new_id_capacity (L : Z) (e : EEPROM_t) (objects : list ObjectData)
    (ods : bool) (id : Z) (src : list Z) (sz : Z) :
  holds L e objects -> find_index id objects = None -> 0 <= sz ->
  let total := sum_sizes objects + 1
               + sizeof_ObjectData * (Z.of_nat (length objects) + 1) + sz in
  total < 65536 ->
  ((save L ods id src sz e).1 = true <-> total <= L) /\
  (L < total -> save L ods id src sz e = (false, e)).
Proof.
  intros H F Hsz. cbv zeta. intros Hwrap.
  pose proof (sum_sizes_nonneg _ (holds_fields _ _ _ H)) as Hs.
  assert (Ht : append_totalSize objects (Z.of_nat (length objects)) sz =
               sum_sizes objects + 1 + sizeof_ObjectData * (Z.of_nat (length objects) + 1) + sz)
    by (unfold append_totalSize, sizeof_ObjectData in *; rewrite u16_id; lia).
  unfold save. rewrite bind_unfold, (holds_getObjectAmount _ _ _ H). cbn [fst snd].
  rewrite bind_unfold, (holds_loadObjectData _ _ _ H). cbn [fst snd]. rewrite F, Ht.
  destruct (Z.leb_spec (sum_sizes objects + 1
              + sizeof_ObjectData * (Z.of_nat (length objects) + 1) + sz) L) as [Hle|Hgt].
  - rewrite save_append_fst. split; [tauto|]. intros. lia.
  - split; [|reflexivity]. cbn. split; [discriminate|lia].
Qed.

(** C5. Starting from an empty store (a counter of 0 and byte cells),
    after any sequence of [save], [remove] and [reset], the directory that
    the code reads back has pairwise distinct ids. The operations are those
    the code can receive: [uint8_t] ids and records the caller holds in
    RAM, so that [sz + EEPROM.length() + 4 <= 65536] and no [uint16_t]
    total or address of [save] wraps ([op_ok]; the largest AVR has 8 KiB
    of RAM and a 4 KiB EEPROM). *)
Theorem ids_distinct_without_wrap (L : Z) (ops : list op) (e : EEPROM_t) :
  holds L e [] -> Forall (op_ok L) ops ->
  let e' := (run_ops L ops e).2 in
  NoDup (map obj_id (loadObjectData L (getObjectAmount L e').1 e').1).
Proof.
  intros H Hops. cbv zeta.
  destruct (run_ops_preserves L ops e [] H (NoDup_nil_2) Hops) as (objects' & H' & Hnd).
  rewrite (holds_getObjectAmount _ _ _ H'). cbn [fst].
  rewrite (holds_loadObjectData _ _ _ H'). exact Hnd.
Qed.

(** C1 (defect). The round trip fails when the directory already has 255
    entries: on a 4096-byte EEPROM holding 255 one-byte records (plenty of
    room left), [save] of a 256th id returns true, but [saveObjectData]
    stores the count [objectAmount + 1 = 256] in a [uint8_t], i.e. 0, so
    the directory is empty and [load] of the new id fails. *)
Theorem save_256th_entry_lost :
  holds 4096 full255_store full255_objects /\
  find_index 255 full255_objects = None /\
  sum_sizes full255_objects + 1 + sizeof_ObjectData * 256 + 1 <= 4096 /\
  (let r := save 4096 false 255 [42] 1 full255_store in
   r.1 = true /\ rd r.2 4095 = 0 /\ (load 4096 255 r.2).1 = None).
Proof.
  split; [apply holds_check_sound; vm_compute; reflexivity|].
  split; [vm_compute; reflexivity|].
  split; [vm_compute; discriminate|].
  vm_compute. split; [reflexivity|]. split; reflexivity.
Qed.

(** C2: counterexample. A resize that does not fit leaves the id present:
    with resizing on, [save] of id 10 (4 bytes) with 100 bytes in the
    64-byte store of [abc_store] returns false and id 10 still exists. *)
Lemma resize_failure_keeps_id :
  holds 64 abc_store abc_objects /\
  find_index 10 abc_objects = Some 0%nat /\
  obj_size (nth 0 abc_objects dflt_ObjectData) <> 100 /\
  64 < resize_totalSize abc_objects 0 3 100 /\
  (save 64 true 10 (repeat 0 100) 100 abc_store).1 = false /\
  (exists_ 64 10 (save 64 true 10 (repeat 0 100) 100 abc_store).2).1 = true.
Proof.
  split; [apply holds_check_sound; vm_compute; reflexivity|].
  split; [reflexivity|]. split; [simpl; lia|].
  split; [vm_compute; reflexivity|]. split; vm_compute; reflexivity.
Qed.

(** ** Round trip below 255 entries *)

Lemma find_index_snoc (id : Z) (objs : list ObjectData) (x : ObjectData) :
  find_index id objs = None -> obj_id x = id ->
  find_index id (objs ++ [x]) = Some (length objs).
Proof.
  intros F Hx. induction objs as [|o os IH]; simpl in *.
  - rewrite Hx, Z.eqb_refl. reflexivity.
  - destruct (Z.eqb_spec (obj_id o) id); [discriminate|].
    destruct (find_index id os); [discriminate|]. rewrite IH by reflexivity. reflexivity.
Qed.

Lemma save_append_record (L : Z) (e : EEPROM_t) (objects : list ObjectData)
    (id : Z) (src : list Z) (sz : Z) :
  holds L e objects -> 0 <= id < 256 ->
  Z.of_nat (length src) = sz -> Forall (fun v => 0 <= v < 256) src ->
  sum_sizes objects + 1 + sizeof_ObjectData * (Z.of_nat (length objects) + 1) + sz <= L ->
  (length objects < 255)%nat ->
  let e' := (save_append L id src sz objects (Z.of_nat (length objects)) e).2 in
  record_bytes e' (objects ++ [mkObjectData id sz]) (length objects) = src.
Proof.
  intros H Hid Hlen Hsrc Hcap Hn. cbv zeta.
  pose proof (holds_fields _ _ _ H) as Hf.
  pose proof (holds_length _ _ _ H) as HL.
  pose proof (sum_sizes_nonneg _ Hf) as Hs.
  unfold sizeof_ObjectData in Hcap.
  assert (Hadr : getAddress_objects (objects ++ [mkObjectData id sz]) (length objects) =
                 sum_sizes objects)
    by (unfold getAddress_objects; rewrite take_app_length; apply u16_id; lia).
  unfold save_append. rewrite !bind_unfold. cbn [ret snd].
  rewrite Nat2Z.id, Hadr.
  unfold ramToEEPROM.
  destruct (ramToEEPROM_loop_spec (sum_sizes objects) src 0 (Z.to_nat sz) e) as [Hrd _];
    [lia|lia|].
  set (e1 := (ramToEEPROM_loop (sum_sizes objects) src 0 (Z.to_nat sz) e).2) in *.
  assert (Hb1 : bytes_ok e1)
    by (apply keeps_bytes_ramToEEPROM_loop, (holds_bytes _ _ _ H)).
  assert (Hl : Z.of_nat (length objects) + 1 =
               Z.of_nat (length (objects ++ [mkObjectData id sz])))
    by (rewrite length_app; simpl; lia).
  rewrite Hl.
  destruct (saveObjectData_holds L (objects ++ [mkObjectData id sz]) e1 Hb1 HL) as [_ Hfr].
  - apply Forall_app_2; [exact Hf|]. constructor; [simpl; lia|constructor].
  - rewrite length_app. simpl. lia.
  - rewrite sum_sizes_app, length_app. simpl. unfold sizeof_ObjectData. lia.
  - unfold record_bytes. rewrite Hadr.
    rewrite nth_lookup, lookup_app_r, Nat.sub_diag by lia. cbn [lookup list_lookup default obj_size].
    transitivity (map (fun j => nth (Z.to_nat (j - 0)) src 0) (seqZ 0 sz));
      [|rewrite <- Hlen; apply map_nth_seqZ].
    apply map_ext_in. intros j Hj. apply list_elem_of_In, elem_of_seqZ in Hj.
    rewrite Hfr by (rewrite length_app; simpl; unfold dir_start, sizeof_ObjectData; lia).
    rewrite Hrd. rewrite Z2Nat.id by lia.
    destruct (Z.leb_spec (sum_sizes objects + 0) (sum_sizes objects + j)),
             (Z.ltb_spec (sum_sizes objects + j) (sum_sizes objects + 0 + sz)); simpl; try lia.
    replace (Z.to_nat (sum_sizes objects + j - sum_sizes objects - 0)) with (Z.to_nat (j - 0))
      by lia.
    apply u8_id. destruct (nth_lookup_or_length src (Z.to_nat (j - 0)) 0) as [E|E]; [|lia].
    eapply Forall_lookup_1 in Hsrc; [exact Hsrc|exact E].
Qed.

(** Round trip of a new id: while the directory has fewer than 255 entries,
    [save] of an absent id whose record fits returns true, and [load] of
    that id then yields exactly the saved bytes. *)
Theorem save_load_round_trip (L : Z) (e : EEPROM_t) (objects : list ObjectData)
    (ods : bool) (id : Z) (src : list Z) :
  holds L e objects -> find_index id objects = None -> (length objects < 255)%nat ->
  0 <= id < 256 -> Forall (fun v => 0 <= v < 256) src ->
  let sz := Z.of_nat (length src) in
  sum_sizes objects + 1 + sizeof_ObjectData * (Z.of_nat (length objects) + 1) + sz <= L ->
  let e' := (save L ods id src sz e).2 in
  (save L ods id src sz e).1 = true /\ load L id e' = (Some src, e').
Proof.
  intros H F Hn Hid Hsrc. cbv zeta. intros Hcap.
  pose proof (sum_sizes_nonneg _ (holds_fields _ _ _ H)) as Hs.
  pose proof (holds_length _ _ _ H) as HL.
  assert (Ht : append_totalSize objects (Z.of_nat (length objects)) (Z.of_nat (length src)) =
               sum_sizes objects + 1
               + sizeof_ObjectData * (Z.of_nat (length objects) + 1) + Z.of_nat (length src))
    by (unfold append_totalSize, sizeof_ObjectData in *; rewrite u16_id; lia).
  unfold save. rewrite bind_unfold, (holds_getObjectAmount _ _ _ H). cbn [fst snd].
  rewrite bind_unfold, (holds_loadObjectData _ _ _ H). cbn [fst snd]. rewrite F, Ht.
  destruct (Z.leb_spec (sum_sizes objects + 1
              + sizeof_ObjectData * (Z.of_nat (length objects) + 1)
              + Z.of_nat (length src)) L); [|lia].
  split; [apply save_append_fst|].
  destruct (save_append_holds L e objects id src (Z.of_nat (length src)) H Hid)
    as [Hok _]; [unfold sizeof_ObjectData in *; lia|exact Hcap|].
  rewrite (load_present L _ (objects ++ [mkObjectData id (Z.of_nat (length src))]) id
             (length objects) (Hok Hn) (find_index_snoc id objects (mkObjectData id (Z.of_nat (length src))) F eq_refl)).
  rewrite save_append_record; try assumption; reflexivity.
Qed.

(** ** Witnesses: the theorems at concrete stores *)

Lemma remove_compacts_witness :
  holds 64 abc_store abc_objects /\
  holds 64 (remove 64 11 abc_store).2 (remove_index 1 abc_objects) /\
  rd (remove 64 11 abc_store).2 63 = 2 /\
  getAddress_objects (remove_index 1 abc_objects) 0 = 0 /\
  getAddress_objects (remove_index 1 abc_objects) 1 = 4 /\
  record_bytes (remove 64 11 abc_store).2 (remove_index 1 abc_objects) 1 = [11; 12].
Proof.
  assert (H : holds 64 abc_store abc_objects)
    by (apply holds_check_sound; vm_compute; reflexivity).
  pose proof (remove_compacts 64 abc_store abc_objects 11 H) as T.
  change (find_index 11 abc_objects) with (Some 1%nat) in T. cbv zeta in T.
  destruct T as (T1 & T2 & T3).
  destruct (T3 1%nat ltac:(simpl; lia)) as (_ & _ & T4).
  split; [exact H|]. split; [exact T1|]. split; [exact T2|].
  split; [reflexivity|]. split; [reflexivity|].
  rewrite T4. vm_compute. reflexivity.
Defined.

Lemma save_same_size_in_place_witness :
  holds 64 abc_store abc_objects /\
  find_index 11 abc_objects = Some 1%nat /\
  (save 64 false 11 [9; 9; 9; 9; 9; 9] 6 abc_store).1 = true /\
  record_bytes (save 64 false 11 [9; 9; 9; 9; 9; 9] 6 abc_store).2 abc_objects 1 =
    [9; 9; 9; 9; 9; 9].
Proof.
  assert (H : holds 64 abc_store abc_objects)
    by (apply holds_check_sound; vm_compute; reflexivity).
  assert (Hsrc : Forall (fun v => 0 <= v < 256) [9; 9; 9; 9; 9; 9])
    by (repeat (constructor; [cbv beta; lia|]); constructor).
  pose proof (save_same_size_in_place 64 abc_store abc_objects false 11 1 [9; 9; 9; 9; 9; 9]
                H eq_refl eq_refl Hsrc) as T.
  cbv zeta in T. change (obj_size (nth 1 abc_objects dflt_ObjectData)) with 6 in T.
  destruct T as (T1 & _ & T3 & _).
  split; [exact H|]. split; [reflexivity|]. split; [exact T1|exact T3].
Defined.

Lemma save_size_mismatch_rejected_witness :
  holds 64 abc_store abc_objects /\
  find_index 10 abc_objects = Some 0%nat /\
  save 64 false 10 [0; 0; 0; 0; 0] 5 abc_store = (false, abc_store) /\
  (load 64 10 abc_store).1 = Some [1; 2; 3; 4].
Proof.
  assert (H : holds 64 abc_store abc_objects)
    by (apply holds_check_sound; vm_compute; reflexivity).
  pose proof (save_size_mismatch_rejected 64 abc_store abc_objects 10 0 [0; 0; 0; 0; 0] 5
                H eq_refl ltac:(simpl; lia)) as T.
  cbv zeta in T. destruct T as (T1 & T2 & _).
  rewrite T1 in T2. cbn [snd] in T2.
  split; [exact H|]. split; [reflexivity|]. split; [exact T1|].
  rewrite T2. vm_compute. reflexivity.
Defined.

Lemma save_resize_checks_space_first_witness :
  holds 64 abc_store abc_objects /\
  find_index 10 abc_objects = Some 0%nat /\
  64 < resize_totalSize abc_objects 0 3 100 /\
  save 64 true 10 (repeat 0 100) 100 abc_store = (false, abc_store) /\
  exists_ 64 10 abc_store = (true, abc_store).
Proof.
  assert (H : holds 64 abc_store abc_objects)
    by (apply holds_check_sound; vm_compute; reflexivity).
  assert (Hbig : 64 < resize_totalSize abc_objects 0 3 100) by (vm_compute; reflexivity).
  destruct (save_resize_checks_space_first 64 abc_store abc_objects 10 0 (repeat 0 100) 100
              H eq_refl ltac:(simpl; lia) Hbig) as [T1 T2].
  split; [exact H|]. split; [reflexivity|]. split; [exact Hbig|]. split; assumption.
Defined.

Lemma reset_writes_only_count_witness :
  1 <= 64 <= 65535 /\
  rd (reset 64 abc_store).2 63 = 0 /\
  exists_ 64 10 (reset 64 abc_store).2 = (false, (reset 64 abc_store).2).
Proof.
  pose proof (reset_writes_only_count 64 abc_store ltac:(lia)) as T.
  cbv zeta in T. destruct T as (T1 & _ & _ & T4).
  split; [lia|]. split; [exact T1|apply T4].
Defined.

Lemma isValid_defaults_to_zero_witness :
  (exists_ 64 5 empty_store).1 = false /\
  isValid 64 0 5 empty_store = (true, empty_store) /\
  setup 64 false 0 5 (reset 64 empty_store).2 = (false, (reset 64 empty_store).2).
Proof.
  assert (Hx : (exists_ 64 5 empty_store).1 = false) by (vm_compute; reflexivity).
  pose proof (isValid_defaults_to_zero 64 empty_store 5 0 false (or_introl Hx)) as T.
  cbv zeta in T. destruct T as (T1 & _ & T3).
  split; [exact Hx|]. split; [rewrite T1; reflexivity|exact T3].
Defined.

Lemma save_new_id_capacity_witness :
  holds 64 abc_store abc_objects /\
  find_index 13 abc_objects = None /\
  (save 64 false 13 (repeat 7 20) 20 abc_store).1 = true /\
  save 64 false 13 (repeat 7 40) 40 abc_store = (false, abc_store).
Proof.
  assert (H : holds 64 abc_store abc_objects)
    by (apply holds_check_sound; vm_compute; reflexivity).
  pose proof (save_new_id_capacity 64 abc_store abc_objects false 13 (repeat 7 20) 20
                H eq_refl ltac:(lia)) as T.
  pose proof (save_new_id_capacity 64 abc_store abc_objects false 13 (repeat 7 40) 40
                H eq_refl ltac:(lia)) as U.
  cbv zeta in T, U.
  unfold sizeof_ObjectData in T, U.
  destruct (T ltac:(simpl; lia)) as [[_ T2] _].
  destruct (U ltac:(simpl; lia)) as [_ U2].
  split; [exact H|]. split; [reflexivity|].
  split; [apply T2; simpl; lia|apply U2; simpl; lia].
Defined.

Lemma ids_distinct_without_wrap_witness :
  let ops := [op_save false 10 [1; 2; 3; 4] 4; op_save false 11 [5; 6] 2; op_remove 10;
              op_save true 11 [1; 2; 3] 3; op_reset; op_save false 12 [] 0;
              op_save false 12 [9] 1; op_save false 13 [8; 8] 2] in
  let e' := (run_ops 64 ops empty_store).2 in
  holds 64 empty_store [] /\ Forall (op_ok 64) ops /\
  NoDup (map obj_id (loadObjectData 64 (getObjectAmount 64 e').1 e').1).
Proof.
  intros ops e'.
  assert (H : holds 64 empty_store []) by (apply holds_check_sound; vm_compute; reflexivity).
  assert (Hops : Forall (op_ok 64) ops)
    by (unfold ops; repeat (constructor; [simpl; first [exact I | lia] |]); constructor).
  split; [exact H|]. split; [exact Hops|].
  exact (ids_distinct_without_wrap 64 ops empty_store H Hops).
Defined.

Lemma save_load_round_trip_witness :
  holds 64 abc_store abc_objects /\
  find_index 13 abc_objects = None /\
  (save 64 false 13 [7; 8; 9] 3 abc_store).1 = true /\
  load 64 13 (save 64 false 13 [7; 8; 9] 3 abc_store).2 =
    (Some [7; 8; 9], (save 64 false 13 [7; 8; 9] 3 abc_store).2).
Proof.
  assert (H : holds 64 abc_store abc_objects)
    by (apply holds_check_sound; vm_compute; reflexivity).
  assert (Hsrc : Forall (fun v => 0 <= v < 256) [7; 8; 9])
    by (repeat (constructor; [cbv beta; lia|]); constructor).
  pose proof (save_load_round_trip 64 abc_store abc_objects false 13 [7; 8; 9]
                H eq_refl ltac:(simpl; lia) ltac:(lia) Hsrc) as T.
  cbv zeta in T. unfold sizeof_ObjectData in T.
  destruct (T ltac:(simpl; lia)) as [T1 T2].
  split; [exact H|]. split; [reflexivity|]. split; [exact T1|exact T2].
Defined.

(** ** Further properties: helpers *)

Lemma find_index_None_iff (id : Z) (objs : list ObjectData) :
  find_index id objs = None <-> ~ In id (map obj_id objs).
Proof.
  induction objs as [|o os IH]; simpl; [tauto|].
  destruct (Z.eqb_spec (obj_id o) id) as [E|E].
  - split; [discriminate|]. intros Hn. exfalso. apply Hn. left. exact E.
  - split.
    + intros Hf [Ho|Hin]; [contradiction|].
      assert (F : find_index id os = None)
        by (destruct (find_index id os); [discriminate|reflexivity]).
      exact (proj1 IH F Hin).
    + intros Hn. assert (F : find_index id os = None)
        by (apply IH; intros Hin; apply Hn; right; exact Hin).
      rewrite F. reflexivity.
Qed.

Lemma load_absent (L : Z) (e : EEPROM_t) (objects : list ObjectData) (id : Z) :
  holds L e objects -> find_index id objects = None -> load L id e = (None, e).
Proof.
  intros H F. unfold load. rewrite (holds_prologue L e objects _ H), F. reflexivity.
Qed.

Lemma getObjectData_present (L : Z) (e : EEPROM_t) (objects : list ObjectData)
    (id : Z) (idx : nat) :
  holds L e objects -> find_index id objects = Some idx ->
  getObjectData L id e = (nth idx objects dflt_ObjectData, e).
Proof.
  intros H F. unfold getObjectData. rewrite (holds_prologue L e objects _ H), F. reflexivity.
Qed.

Lemma isValid_readonly (L uniqueInt id : Z) (e : EEPROM_t) :
  (isValid L uniqueInt id e).2 = e.
Proof.
  unfold isValid. rewrite bind_unfold, exists_readonly, bind_unfold. cbn [ret snd].
  destruct (exists_ L id e).1; [|reflexivity].
  rewrite bind_unfold, getObjectData_readonly.
  destruct (obj_size (getObjectData L id e).1 =? 2); [|reflexivity].
  rewrite bind_unfold, load_readonly.
  destruct (load L id e).1 as [[|b0 [|b1 [|]]]|]; reflexivity.
Qed.

(** Every branch of [save] either returns true or returns false with the
    store untouched. *)
Lemma save_false_or_true (L : Z) (ods : bool) (id : Z) (src : list Z) (sz : Z)
    (e : EEPROM_t) :
  save L ods id src sz e = (false, e) \/ (save L ods id src sz e).1 = true.
Proof.
  unfold save. prologue_readonly.
  destruct (find_index id _) as [idx|].
  - destruct (obj_size _ =? sz).
    + right. rewrite bind_unfold. reflexivity.
    + destruct ods; [|left; reflexivity].
      destruct (resize_totalSize _ idx _ sz <=? L); [|left; reflexivity].
      right. rewrite bind_unfold. apply save_append_fst.
  - destruct (append_totalSize _ _ sz <=? L); [|left; reflexivity].
    right. apply save_append_fst.
Qed.

(** The append branch of [save] for an absent id, below 255 entries. *)
Lemma save_absent_spec (L : Z) (e : EEPROM_t) (objects : list ObjectData)
    (ods : bool) (id : Z) (src : list Z) (sz : Z) :
  holds L e objects -> find_index id objects = None -> (length objects < 255)%nat ->
  0 <= id < 256 -> Z.of_nat (length src) = sz -> Forall (fun v => 0 <= v < 256) src ->
  sum_sizes objects + 1 + sizeof_ObjectData * (Z.of_nat (length objects) + 1) + sz <= L ->
  let r := save L ods id src sz e in
  r.1 = true /\ holds L r.2 (objects ++ [mkObjectData id sz]) /\
  record_bytes r.2 (objects ++ [mkObjectData id sz]) (length objects) = src.
Proof.
  intros H F Hn Hid Hlen Hsrc Hcap. cbv zeta.
  pose proof (sum_sizes_nonneg _ (holds_fields _ _ _ H)) as Hs.
  pose proof (holds_length _ _ _ H) as HL.
  assert (Ht : append_totalSize objects (Z.of_nat (length objects)) sz =
               sum_sizes objects + 1
               + sizeof_ObjectData * (Z.of_nat (length objects) + 1) + sz)
    by (unfold append_totalSize, sizeof_ObjectData in *; rewrite u16_id; lia).
  assert (Hsave : save L ods id src sz e =
                  save_append L id src sz objects (Z.of_nat (length objects)) e).
  { unfold save. rewrite (holds_prologue L e objects _ H), F, Ht.
    destruct (Z.leb_spec (sum_sizes objects + 1
                + sizeof_ObjectData * (Z.of_nat (length objects) + 1) + sz) L);
      [reflexivity|lia]. }
  rewrite Hsave. split; [apply save_append_fst|].
  destruct (save_append_holds L e objects id src sz H Hid) as [Hok _];
    [unfold sizeof_ObjectData in *; lia|exact Hcap|].
  split; [exact (Hok Hn)|]. apply save_append_record; assumption.
Qed.

(** Search in the directory after dropping entry [idx] (found for [id]):
    the entries of another id keep their order, those after [idx] one slot
    lower. *)
Lemma find_index_remove_index (id id' : Z) (objs : list ObjectData) (idx : nat) :
  find_index id objs = Some idx -> id' <> id ->
  find_index id' (remove_index idx objs) =
  option_map (fun j => if Nat.ltb j idx then j else Nat.pred j) (find_index id' objs).
Proof.
  revert idx. induction objs as [|o os IH]; intros idx F Hne; [discriminate|].
  simpl in F. destruct (Z.eqb_spec (obj_id o) id) as [E|E].
  - injection F as <-. unfold remove_index. simpl.
    destruct (Z.eqb_spec (obj_id o) id'); [congruence|].
    rewrite drop_0. destruct (find_index id' os); reflexivity.
  - destruct (find_index id os) as [i|] eqn:Fi; [|discriminate]. injection F as <-.
    unfold remove_index. simpl. fold (remove_index i os).
    destruct (Z.eqb_spec (obj_id o) id'); [reflexivity|].
    rewrite (IH i eq_refl Hne).
    destruct (find_index id' os) as [j|] eqn:Fj; [|reflexivity]. simpl.
    destruct (find_index_Some _ _ _ Fi) as (_ & Hi & _).
    destruct (find_index_Some _ _ _ Fj) as (_ & Hj & _).
    assert (j <> i) by (intros ->; congruence).
    destruct (Nat.ltb_spec j i), (Nat.ltb_spec (S j) (S i)); try lia; f_equal; lia.
Qed.

(** The records that [remove] keeps, at their new indices. *)
Lemma remove_records (L : Z) (e : EEPROM_t) (objects : list ObjectData) (id : Z) (idx : nat) :
  holds L e objects -> find_index id objects = Some idx ->
  forall k, (k < length (remove_index idx objects))%nat ->
  record_bytes (remove L id e).2 (remove_index idx objects) k =
  record_bytes e objects (if Nat.ltb k idx then k else S k).
Proof.
  intros H F k Hk.
  destruct (find_index_Some _ _ _ F) as (Hlt & _ & _).
  destruct (remove_present L e objects id idx H F) as [H' Hrd]. cbv zeta in Hrd.
  pose proof (holds_fields _ _ _ H) as Hf.
  pose proof (holds_sum_fit _ _ _ H) as Hfit.
  pose proof (holds_capacity _ _ _ H) as Hcap.
  pose proof (fields_ok_remove_index idx objects Hf) as Hf'.
  pose proof (fields_ok_nth objects idx Hf) as [_ Hd].
  rewrite length_remove_index in Hk by exact Hlt.
  assert (Hnth : nth k (remove_index idx objects) dflt_ObjectData =
                 nth (if Nat.ltb k idx then k else S k) objects dflt_ObjectData)
    by (apply nth_remove_index, Hlt).
  assert (Hfit' : sum_sizes (remove_index idx objects) <= 65535)
    by (rewrite sum_sizes_remove_index by exact Hlt; lia).
  assert (Hadr : getAddress_objects (remove_index idx objects) k =
            (if Nat.ltb k idx then getAddress_objects objects k
             else getAddress_objects objects (S k) - obj_size (nth idx objects dflt_ObjectData))).
  { rewrite !getAddress_objects_fit by assumption.
    rewrite sum_take_remove_index by exact Hlt. destruct (Nat.ltb k idx); reflexivity. }
  apply record_bytes_ext; [rewrite Hnth; reflexivity|].
  intros j Hj. rewrite Hadr.
  rewrite !getAddress_objects_fit by assumption.
  pose proof (sum_sizes_take_S objects) as AS.
  pose proof (fun j1 j2 => sum_take_mono objects j1 j2 Hf) as AM.
  pose proof (fun j => sum_sizes_take_le objects j Hf) as AL.
  unfold sizeof_ObjectData in *.
  rewrite Hrd.
  2:{ rewrite length_remove_index by exact Hlt. unfold dir_start, sizeof_ObjectData.
      destruct (Nat.ltb_spec k idx).
      - pose proof (AS k ltac:(lia)). pose proof (AL (S k)). lia.
      - pose proof (AS (S k) ltac:(lia)). pose proof (AL (S (S k))). lia. }
  unfold shifted. destruct (Nat.ltb_spec k idx).
  - pose proof (AS k ltac:(lia)). pose proof (AM (S k) idx ltac:(lia)).
    destruct (Z.leb_spec (sum_sizes (take idx objects)) (sum_sizes (take k objects) + j)); simpl; [lia|].
    reflexivity.
  - pose proof (AS (S k) ltac:(lia)). pose proof (AS idx Hlt). pose proof (AM (S idx) (S k) ltac:(lia)).
    pose proof (AL (S (S k))).
    destruct (Z.leb_spec (sum_sizes (take idx objects))
               (sum_sizes (take (S k) objects) - obj_size (nth idx objects dflt_ObjectData) + j)),
             (Z.ltb_spec (sum_sizes (take (S k) objects) - obj_size (nth idx objects dflt_ObjectData) + j)
               (sum_sizes objects - obj_size (nth idx objects dflt_ObjectData))); simpl; try lia.
    f_equal. lia.
Qed.

(** [loadSerial] reads exactly what [load] reads and hands it to
    [deserialize]. *)
Lemma loadSerial_load {T : Type} `{Serializable T} (L id : Z) (dest : T) (e : EEPROM_t) :
  loadSerial L id dest e =
  (match (load L id e).1 with
   | Some bs => (true, (deserialize dest bs 0).1)
   | None => (false, dest)
   end, (load L id e).2).
Proof.
  unfold loadSerial, load.
  rewrite !bind_unfold, !getObjectAmount_readonly, !loadObjectData_readonly.
  destruct (find_index id _); [|reflexivity].
  rewrite !bind_unfold. reflexivity.
Qed.

Lemma putObject_loop_spec (ram stream : list Z) (i : nat) :
  (i + length ram <= length stream)%nat -> Z.of_nat (i + length ram) <= 65535 ->
  putObject_loop ram stream (Z.of_nat i) (length ram) =
  (take i stream ++ ram ++ drop (i + length ram) stream, Z.of_nat (i + length ram)).
Proof.
  revert stream i. induction ram as [|b ram IH]; intros stream i H1 H2.
  - simpl. rewrite Nat.add_0_r, take_drop. reflexivity.
  - simpl length in *. cbn [putObject_loop hd tl]. rewrite Nat2Z.id.
    replace (u16 (Z.of_nat i + 1)) with (Z.of_nat (S i)) by (rewrite u16_id; lia).
    rewrite insert_take_drop by lia.
    rewrite IH by (rewrite ?length_app, ?length_take; simpl; rewrite ?length_drop; lia).
    f_equal; [|f_equal; lia].
    rewrite take_app, length_take, take_take.
    replace (min (S i) i) with i by lia.
    replace (S i - min i (length stream))%nat with 1%nat by lia.
    simpl. rewrite <- app_assoc. simpl. f_equal. f_equal. f_equal.
    rewrite drop_app, length_take, drop_ge by (rewrite length_take; lia).
    replace (S (i + length ram) - min i (length stream))%nat with (S (length ram)) by lia.
    change (drop (S (length ram)) (b :: drop (S i) stream))
      with (drop (length ram) (drop (S i) stream)).
    rewrite app_nil_l, drop_drop. f_equal. lia.
Qed.

Lemma getObject_loop_spec (stream : list Z) (i k : nat) :
  (i + k <= length stream)%nat -> Z.of_nat (i + k) <= 65535 ->
  getObject_loop stream (Z.of_nat i) k = (take k (drop i stream), Z.of_nat (i + k)).
Proof.
  revert i. induction k as [|k IH]; intros i H1 H2.
  - simpl. rewrite Nat.add_0_r. reflexivity.
  - cbn [getObject_loop].
    replace (u16 (Z.of_nat i + 1)) with (Z.of_nat (S i)) by (rewrite u16_id; lia).
    rewrite IH by lia. rewrite Nat2Z.id.
    destruct (lookup_lt_is_Some_2 stream i) as [x Hx]; [lia|].
    rewrite (drop_S stream x i Hx), (nth_lookup_Some stream i 0 x Hx).
    simpl. f_equal. f_equal. lia.
Qed.

Lemma record_bytes_length (e : EEPROM_t) (objects : list ObjectData) (k : nat) :
  Z.of_nat (length (record_bytes e objects k)) =
  Z.max 0 (obj_size (nth k objects dflt_ObjectData)).
Proof. unfold record_bytes. rewrite length_map, length_seqZ. lia. Qed.

(** ** Further properties of the library *)

(** [Serializable::putObject] then [getObject] at the same index: the
    stream holds the object's bytes at [index .. index + size) and is
    unchanged elsewhere, both calls advance the index by [size], and
    [getObject] reads back exactly the bytes [putObject] wrote. *)
Theorem putObject_getObject (size index : Z) (ram stream : list Z) :
  Z.of_nat (length ram) = size -> 0 <= index ->
  index + size <= Z.of_nat (length stream) -> index + size <= 65535 ->
  let r := putObject size ram stream index in
  r.2 = index + size /\
  r.1 = take (Z.to_nat index) stream ++ ram ++ drop (Z.to_nat (index + size)) stream /\
  getObject size r.1 index = (ram, index + size).
Proof.
  intros Hlen Hi Hs Hw. subst size. cbv zeta.
  remember (Z.to_nat index) as i eqn:Ei.
  assert (index = Z.of_nat i) as -> by lia. clear Ei Hi.
  unfold putObject, getObject. rewrite !Nat2Z.id.
  rewrite putObject_loop_spec by lia. cbn [fst snd].
  split; [lia|]. split.
  { do 3 f_equal. lia. }
  rewrite getObject_loop_spec
    by (rewrite ?length_app, ?length_take, ?length_drop; lia).
  rewrite drop_app_length' by (rewrite length_take; lia).
  rewrite take_app_length. f_equal. lia.
Qed.

(** [EZPROM::save] writes nothing when it fails: on every store, a [false]
    result comes with the store unchanged (size mismatch, no room, or no
    room to resize). *)
Theorem save_false_unchanged (L : Z) (ods : bool) (id : Z) (src : list Z) (sz : Z)
    (e : EEPROM_t) :
  (save L ods id src sz e).1 = false -> save L ods id src sz e = (false, e).
Proof.
  intros Hf. destruct (save_false_or_true L ods id src sz e) as [E|E]; [exact E|congruence].
Qed.

(** [EZPROM::getAddress(id)]: on a well-formed store, a stored id's address
    is the sum of the sizes of the records before it, and its record ends
    before the directory; an absent id yields [EEPROM.length()]. The store is
    not written. *)
Theorem getAddress_by_id (L : Z) (e : EEPROM_t) (objects : list ObjectData) (id : Z) :
  holds L e objects ->
  match find_index id objects with
  | Some idx =>
      getAddress L id e = (sum_sizes (take idx objects), e) /\
      sum_sizes (take idx objects) + obj_size (nth idx objects dflt_ObjectData)
        <= dir_start L (Z.of_nat (length objects))
  | None => getAddress L id e = (L, e)
  end.
Proof.
  intros H.
  pose proof (holds_fields _ _ _ H) as Hf.
  pose proof (holds_sum_fit _ _ _ H) as Hfit.
  pose proof (holds_capacity _ _ _ H) as Hcap.
  unfold getAddress. rewrite (holds_prologue L e objects _ H).
  destruct (find_index id objects) as [idx|] eqn:F; [|reflexivity].
  destruct (find_index_Some _ _ _ F) as (Hlt & _ & _).
  split.
  - rewrite getAddress_objects_fit by assumption. reflexivity.
  - rewrite <- sum_sizes_take_S by exact Hlt.
    pose proof (sum_sizes_take_le objects (S idx) Hf).
    unfold dir_start, sizeof_ObjectData in *. lia.
Qed.

(** [EZPROM::getObjectData]: on a well-formed store, a stored id yields its
    directory entry, and [load] of it succeeds, copying the record's bytes,
    exactly that entry's size of them; an absent id yields [{id, 0}] and
    [load] fails. Nothing is written. *)
Theorem getObjectData_by_id (L : Z) (e : EEPROM_t) (objects : list ObjectData) (id : Z) :
  holds L e objects ->
  match find_index id objects with
  | Some idx =>
      getObjectData L id e = (nth idx objects dflt_ObjectData, e) /\
      obj_id (nth idx objects dflt_ObjectData) = id /\
      load L id e = (Some (record_bytes e objects idx), e) /\
      Z.of_nat (length (record_bytes e objects idx)) = obj_size (nth idx objects dflt_ObjectData)
  | None =>
      getObjectData L id e = (mkObjectData id 0, e) /\ load L id e = (None, e)
  end.
Proof.
  intros H. destruct (find_index id objects) as [idx|] eqn:F.
  - destruct (find_index_Some _ _ _ F) as (_ & Hid & _).
    split; [exact (getObjectData_present L e objects id idx H F)|].
    split; [exact Hid|].
    split; [exact (load_present L e objects id idx H F)|].
    rewrite record_bytes_length.
    pose proof (fields_ok_nth objects idx (holds_fields _ _ _ H)). lia.
  - split; [|exact (load_absent L e objects id H F)].
    unfold getObjectData. rewrite (holds_prologue L e objects _ H), F. reflexivity.
Qed.

(** [EZPROM::exists]: on a well-formed store it answers whether the id is in
    the directory, and it agrees with [load]: [load] fails exactly when
    [exists] is false. *)
Theorem exists_iff_stored (L : Z) (e : EEPROM_t) (objects : list ObjectData) (id : Z) :
  holds L e objects ->
  ((exists_ L id e).1 = true <-> In id (map obj_id objects)) /\
  ((load L id e).1 = None <-> (exists_ L id e).1 = false).
Proof.
  intros H. unfold exists_. rewrite (holds_prologue L e objects _ H).
  destruct (find_index id objects) as [idx|] eqn:F.
  - destruct (find_index_Some _ _ _ F) as (Hlt & Hid & _).
    rewrite (load_present L e objects id idx H F). cbn [ret fst].
    split; split; intros Hx; try discriminate; try reflexivity.
    rewrite <- Hid. apply in_map, nth_In, Hlt.
  - rewrite (load_absent L e objects id H F). cbn [ret fst].
    split; split; intros Hx; try reflexivity; try discriminate.
    exfalso. apply (proj1 (find_index_None_iff id objects) F Hx).
Qed.

Lemma find_index_removed (id : Z) (objects : list ObjectData) (idx : nat) :
  NoDup (map obj_id objects) -> find_index id objects = Some idx ->
  find_index id (remove_index idx objects) = None.
Proof.
  intros Hnd F. destruct (find_index_Some _ _ _ F) as (Hlt & Hidx & _).
  destruct (lookup_lt_is_Some_2 objects idx Hlt) as [o Ho].
  rewrite (nth_lookup_Some _ _ _ _ Ho) in Hidx. subst id.
  destruct (remove_index_ids objects idx o Hnd Ho) as [_ Hnin].
  apply find_index_None_iff. intros Hin. apply Hnin, list_elem_of_In, Hin.
Qed.

Lemma reset_holds_bytes (L : Z) (e : EEPROM_t) :
  bytes_ok e -> 1 <= L <= 65535 -> holds L (reset L e).2 [].
Proof.
  intros Hb HL.
  assert (Hca : count_address L = L - 1) by (unfold count_address; apply u16_id; lia).
  unfold reset. rewrite Hca. constructor.
  - exact HL.
  - apply bytes_ok_update, Hb.
  - rewrite rd_update, Z.eqb_refl. reflexivity.
  - simpl. lia.
  - constructor.
  - intros i o Hi. rewrite lookup_nil in Hi. discriminate.
Qed.

(** The two bytes [setUniqueId] stores decode back to the [uint16_t]. *)
Lemma decode_u16 (u : Z) : 0 <= u < 65536 -> u8 u + 256 * u8 (Z.shiftr u 8) = u.
Proof.
  intros Hu. unfold u8. rewrite Z.shiftr_div_pow2 by lia. change (2 ^ 8) with 256.
  rewrite (Z.mod_small (u / 256) 256)
    by (split; [apply Z.div_pos; lia|apply Z.div_lt_upper_bound; lia]).
  apply decode_size.
Qed.

Lemma setup_unfold (L : Z) (ods : bool) (u id : Z) (e : EEPROM_t) :
  setup L ods u id e =
  if (isValid L u id e).1 then (false, e)
  else (true, (save L ods id [u8 u; u8 (Z.shiftr u 8)] 2 (reset L e).2).2).
Proof.
  unfold setup. rewrite bind_unfold, isValid_readonly. cbv beta.
  destruct (isValid L u id e).1; cbn [negb]; [reflexivity|].
  unfold setUniqueId. rewrite !bind_unfold. reflexivity.
Qed.

(** [EZPROM::remove] on a store whose ids are distinct: afterwards the id
    no longer exists and cannot be loaded, and every other id loads the same
    bytes as before. *)
Theorem remove_then_absent (L : Z) (e : EEPROM_t) (objects : list ObjectData) (id : Z) :
  holds L e objects -> NoDup (map obj_id objects) ->
  let e' := (remove L id e).2 in
  exists_ L id e' = (false, e') /\ load L id e' = (None, e') /\
  (forall id', id' <> id -> load L id' e' = ((load L id' e).1, e')).
Proof.
  intros H Hnd. cbv zeta.
  destruct (find_index id objects) as [idx|] eqn:F.
  2:{ rewrite (remove_absent L e objects id H F). cbn [snd].
      split; [unfold exists_; rewrite (holds_prologue L e objects _ H), F; reflexivity|].
      split; [exact (load_absent L e objects id H F)|].
      intros id' _. pose proof (load_readonly L id' e) as R.
      destruct (load L id' e) as [r e0]. cbn [snd] in R. subst e0. reflexivity. }
  destruct (find_index_Some _ _ _ F) as (Hlt & Hidx & _).
  destruct (remove_present L e objects id idx H F) as [H1 _].
  pose proof (find_index_removed id objects idx Hnd F) as F1.
  split; [unfold exists_; rewrite (holds_prologue L _ _ _ H1), F1; reflexivity|].
  split; [exact (load_absent L _ _ id H1 F1)|].
  intros id' Hne.
  pose proof (find_index_remove_index id id' objects idx F Hne) as F'.
  destruct (find_index id' objects) as [j|] eqn:Fj; cbn [option_map] in F'.
  - destruct (find_index_Some _ _ _ Fj) as (Hjl & Hjid & _).
    assert (Hji : j <> idx) by (intros ->; congruence).
    rewrite (load_present L _ _ id' _ H1 F'), (load_present L e objects id' j H Fj).
    cbn [fst]. do 2 f_equal.
    assert (Hk : ((if Nat.ltb j idx then j else Nat.pred j) < length (remove_index idx objects))%nat)
      by (rewrite length_remove_index by exact Hlt; destruct (Nat.ltb_spec j idx); lia).
    rewrite (remove_records L e objects id idx H F _ Hk). f_equal.
    destruct (Nat.ltb_spec j idx).
    + destruct (Nat.ltb_spec j idx); lia.
    + destruct (Nat.ltb_spec (Nat.pred j) idx); lia.
  - rewrite (load_absent L _ _ id' H1 F'), (load_absent L e objects id' H Fj). reflexivity.
Qed.

(** [EZPROM::save] with [setOverwriteIfSizeDifferent(true)] of a stored id
    under a new size, when the new total fits: the old record is removed,
    the new one is appended as the last entry, and [load] returns the new
    bytes (ids distinct). *)
Theorem save_resize_round_trip (L : Z) (e : EEPROM_t) (objects : list ObjectData)
    (id : Z) (idx : nat) (src : list Z) (sz : Z) :
  holds L e objects -> NoDup (map obj_id objects) -> find_index id objects = Some idx ->
  obj_size (nth idx objects dflt_ObjectData) <> sz ->
  Z.of_nat (length src) = sz -> Forall (fun v => 0 <= v < 256) src ->
  sum_sizes (remove_index idx objects) + 1
    + sizeof_ObjectData * Z.of_nat (length objects) + sz <= L ->
  let e' := (save L true id src sz e).2 in
  (save L true id src sz e).1 = true /\
  holds L e' (remove_index idx objects ++ [mkObjectData id sz]) /\
  load L id e' = (Some src, e').
Proof.
  intros H Hnd F Hne Hlen Hsrc Hfits. cbv zeta.
  pose proof (holds_fields _ _ _ H) as Hf.
  pose proof (holds_length _ _ _ H) as HL.
  pose proof (holds_count_lt _ _ _ H) as Hn.
  destruct (find_index_Some _ _ _ F) as (Hlt & Hidx & _).
  pose proof (fields_ok_nth objects idx Hf) as [Hid _]. rewrite Hidx in Hid.
  destruct (remove_present L e objects id idx H F) as [H1 _].
  pose proof (find_index_removed id objects idx Hnd F) as F1.
  assert (Hlu : length (remove_index idx objects) = (length objects - 1)%nat)
    by (apply length_remove_index, Hlt).
  pose proof (sum_sizes_nonneg _ (fields_ok_remove_index idx objects Hf)) as Hs1.
  unfold sizeof_ObjectData in *.
  assert (Hunf : save L true id src sz e =
                 save_append L id src sz (remove_index idx objects)
                   (Z.of_nat (length (remove_index idx objects))) (remove L id e).2).
  { unfold save. rewrite (holds_prologue L e objects _ H), F.
    destruct (Z.eqb_spec (obj_size (nth idx objects dflt_ObjectData)) sz); [contradiction|].
    assert (Ht : resize_totalSize objects idx (Z.of_nat (length objects)) sz <= L)
      by (unfold resize_totalSize, sizeof_ObjectData; rewrite u16_id; lia).
    destruct (Z.leb_spec (resize_totalSize objects idx (Z.of_nat (length objects)) sz) L);
      [|lia].
    rewrite bind_unfold.
    replace (Z.of_nat (length objects) - 1) with (Z.of_nat (length (remove_index idx objects)))
      by lia.
    reflexivity. }
  rewrite Hunf.
  assert (Hcap : sum_sizes (remove_index idx objects) + 1
                 + sizeof_ObjectData * (Z.of_nat (length (remove_index idx objects)) + 1) + sz
                 <= L)
    by (unfold sizeof_ObjectData; lia).
  assert (Hn' : (length (remove_index idx objects) < 255)%nat) by lia.
  destruct (save_append_holds L (remove L id e).2 (remove_index idx objects) id src sz H1 Hid)
    as [Hok _]; [lia|exact Hcap|].
  split; [apply save_append_fst|].
  split; [exact (Hok Hn')|].
  rewrite (load_present L _ (remove_index idx objects ++ [mkObjectData id sz]) id
             (length (remove_index idx objects)) (Hok Hn')
             (find_index_snoc id _ (mkObjectData id sz) F1 eq_refl)).
  rewrite (save_append_record L _ _ id src sz H1 Hid Hlen Hsrc Hcap Hn').
  reflexivity.
Qed.

(** [EZPROM::setup(uniqueInt, id)] from any byte-valued EEPROM: when the
    stored id already holds [uniqueInt] it returns false and writes nothing;
    otherwise it resets the store, saves [uniqueInt] under [id] as the only
    object, and returns true, after which [isValid] holds and a second
    [setup] returns false without writing. *)
Theorem setup_then_valid (L : Z) (e : EEPROM_t) (ods : bool) (u id : Z) :
  bytes_ok e -> 6 <= L <= 65535 -> 0 <= id < 256 -> 0 <= u < 65536 ->
  match (isValid L u id e).1 with
  | true => setup L ods u id e = (false, e)
  | false =>
      let e' := (setup L ods u id e).2 in
      (setup L ods u id e).1 = true /\ holds L e' [mkObjectData id 2] /\
      isValid L u id e' = (true, e') /\ setup L ods u id e' = (false, e')
  end.
Proof.
  intros Hb HL Hid Hu. rewrite setup_unfold.
  destruct (isValid L u id e).1; [reflexivity|]. cbv zeta. cbn [fst snd].
  pose proof (reset_holds_bytes L e Hb ltac:(lia)) as H1.
  assert (Hbytes : Forall (fun v => 0 <= v < 256) [u8 u; u8 (Z.shiftr u 8)])
    by (unfold u8; repeat constructor; apply Z.mod_pos_bound; lia).
  destruct (save_absent_spec L (reset L e).2 [] ods id [u8 u; u8 (Z.shiftr u 8)] 2
              H1 eq_refl ltac:(simpl; lia) Hid eq_refl Hbytes
              ltac:(simpl; unfold sizeof_ObjectData; lia)) as (_ & H2 & R2).
  change ([] ++ [mkObjectData id 2]) with [mkObjectData id 2] in H2, R2.
  change (length (@nil ObjectData)) with 0%nat in R2.
  set (e2 := (save L ods id [u8 u; u8 (Z.shiftr u 8)] 2 (reset L e).2).2) in *.
  assert (F0 : find_index id [mkObjectData id 2] = Some 0%nat)
    by (simpl; rewrite Z.eqb_refl; reflexivity).
  assert (HV : isValid L u id e2 = (true, e2)).
  { unfold isValid. rewrite bind_unfold, (exists_present L e2 _ id 0 H2 F0). cbn [fst snd].
    rewrite bind_unfold, bind_unfold, (getObjectData_present L e2 _ id 0 H2 F0).
    cbn [fst snd nth obj_size]. change (2 =? 2) with true. cbv iota.
    rewrite bind_unfold, (load_present L e2 _ id 0 H2 F0), R2. cbn [fst snd].
    unfold ret. cbn [fst snd]. rewrite decode_u16, Z.eqb_refl by exact Hu. reflexivity. }
  split; [reflexivity|]. split; [exact H2|]. split; [exact HV|].
  rewrite setup_unfold, HV. reflexivity.
Qed.

(** [EZPROM::saveSerial] then [loadSerial] of a new id: [saveSerial] stores
    the stream that [serialize] fills (in a zeroed buffer of [size()]
    bytes), and [loadSerial] hands exactly that stream to [deserialize]. *)
Theorem saveSerial_loadSerial {T : Type} `{Serializable T} (L : Z) (e : EEPROM_t)
    (objects : list ObjectData) (ods : bool) (id : Z) (src dest : T) :
  holds L e objects -> find_index id objects = None -> (length objects < 255)%nat ->
  0 <= id < 256 ->
  let size := u16 (ser_size src) in
  let stream := (serialize src (repeat 0 (Z.to_nat size)) 0).1 in
  Z.of_nat (length stream) = size -> Forall (fun v => 0 <= v < 256) stream ->
  sum_sizes objects + 1 + sizeof_ObjectData * (Z.of_nat (length objects) + 1) + size <= L ->
  let e' := (saveSerial L ods id src e).2 in
  (saveSerial L ods id src e).1 = true /\
  loadSerial L id dest e' = ((true, (deserialize dest stream 0).1), e').
Proof.
  intros HH F Hn Hid. cbv zeta. intros Hlen Hs Hcap.
  unfold saveSerial.
  destruct (save_absent_spec L e objects ods id _ _ HH F Hn Hid Hlen Hs Hcap)
    as (R1 & H2 & R2).
  split; [exact R1|].
  rewrite loadSerial_load.
  rewrite (load_present L _ _ id (length objects) H2
             (find_index_snoc id objects (mkObjectData id _) F eq_refl)), R2.
  reflexivity.
Qed.

Lemma ramToEEPROM_loop_same (address : Z) (f : Z -> Z) (i : Z) (k : nat) (e : EEPROM_t) :
  (forall j, i <= j < i + Z.of_nat k -> rd e (u16 (address + j)) = u8 (f j)) ->
  ramToEEPROM_loop address (map f (seqZ i (Z.of_nat k))) i k e = (tt, e).
Proof.
  revert i. induction k as [|k IH]; intros i Hs; [reflexivity|].
  rewrite (seqZ_cons i (Z.of_nat (S k))) by lia.
  replace (Z.pred (Z.of_nat (S k))) with (Z.of_nat k) by lia.
  cbn [ramToEEPROM_loop map hd tl]. rewrite bind_unfold.
  assert (Hu : EEPROM_update (u16 (address + i)) (f i) e = (tt, e)).
  { unfold EEPROM_update. rewrite (Hs i ltac:(lia)), Z.eqb_refl. reflexivity. }
  rewrite Hu. cbn [fst snd]. unfold Z.succ. apply IH. intros j Hj. apply Hs. lia.
Qed.

(** [EZPROM::save] of the bytes an object already holds, under the same id
    and size: it returns true and the EEPROM is exactly as before, with no
    cell physically written ([EEPROM.update] skips equal bytes). *)
Theorem save_current_bytes_no_write (L : Z) (e : EEPROM_t) (objects : list ObjectData)
    (ods : bool) (id : Z) (idx : nat) :
  holds L e objects -> find_index id objects = Some idx ->
  let o := nth idx objects dflt_ObjectData in
  save L ods id (record_bytes e objects idx) (obj_size o) e = (true, e).
Proof.
  intros H F. cbv zeta.
  pose proof (holds_fields _ _ _ H) as Hf.
  pose proof (holds_sum_fit _ _ _ H) as Hfit.
  pose proof (holds_capacity _ _ _ H) as Hcap.
  pose proof (holds_bytes _ _ _ H) as Hb.
  destruct (find_index_Some _ _ _ F) as (Hlt & _ & _).
  pose proof (fields_ok_nth objects idx Hf) as [_ Hd].
  rewrite (save_same_size_unfold L e objects ods id idx _ _ H F eq_refl). f_equal.
  unfold ramToEEPROM, record_bytes.
  rewrite getAddress_objects_fit by assumption.
  replace (seqZ 0 (obj_size (nth idx objects dflt_ObjectData)))
    with (seqZ 0 (Z.of_nat (Z.to_nat (obj_size (nth idx objects dflt_ObjectData)))))
    by (f_equal; lia).
  rewrite ramToEEPROM_loop_same; [reflexivity|].
  intros j Hj.
  pose proof (sum_sizes_take_S objects idx Hlt).
  pose proof (sum_sizes_take_le objects (S idx) Hf).
  pose proof (sum_sizes_nonneg _ (fields_ok_take objects idx Hf)).
  unfold sizeof_ObjectData in *.
  rewrite u16_id by lia. unfold u8. rewrite Z.mod_small by apply Hb. reflexivity.
Qed.

(** [EZPROM::saveObjectData] then [getObjectAmount] and
    [EZPROM::loadObjectData]: the counter and the 3-byte directory entries
    read back the list that was saved, and no cell below the directory is
    touched (directory and records within the EEPROM). *)
Theorem saveObjectData_loadObjectData (L : Z) (upd : list ObjectData) (e : EEPROM_t) :
  bytes_ok e -> 1 <= L <= 65535 ->
  Forall (fun o => 0 <= obj_id o < 256 /\ 0 <= obj_size o < 65536) upd ->
  (length upd <= 255)%nat ->
  sum_sizes upd + 1 + sizeof_ObjectData * Z.of_nat (length upd) <= L ->
  let e' := (saveObjectData L upd (Z.of_nat (length upd)) e).2 in
  getObjectAmount L e' = (Z.of_nat (length upd), e') /\
  loadObjectData L (Z.of_nat (length upd)) e' = (upd, e') /\
  (forall b, b < dir_start L (Z.of_nat (length upd)) -> rd e' b = rd e b).
Proof.
  intros Hb HL Hf Hlen Hcap. cbv zeta.
  destruct (saveObjectData_holds L upd e Hb HL Hf Hlen Hcap) as [H' Hfr].
  split; [exact (holds_getObjectAmount L _ _ H')|].
  split; [exact (holds_loadObjectData L _ _ H')|exact Hfr].
Qed.

(** ** Witnesses of the further properties *)

Lemma putObject_getObject_witness :
  (putObject 2 [5; 6] [0; 0; 0; 0] 1).2 = 3 /\
  (putObject 2 [5; 6] [0; 0; 0; 0] 1).1 = [0; 5; 6; 0] /\
  getObject 2 (putObject 2 [5; 6] [0; 0; 0; 0] 1).1 1 = ([5; 6], 3).
Proof.
  pose proof (putObject_getObject 2 1 [5; 6] [0; 0; 0; 0] eq_refl ltac:(lia)
                ltac:(simpl; lia) ltac:(lia)) as T.
  cbv zeta in T. destruct T as (T1 & T2 & T3).
  split; [exact T1|]. split; [rewrite T2; reflexivity|exact T3].
Defined.

Lemma save_false_unchanged_witness :
  (save 64 true 10 (repeat 0 60) 60 abc_store).1 = false /\
  save 64 true 10 (repeat 0 60) 60 abc_store = (false, abc_store).
Proof.
  assert (T : (save 64 true 10 (repeat 0 60) 60 abc_store).1 = false)
    by (vm_compute; reflexivity).
  split; [exact T|exact (save_false_unchanged 64 true 10 (repeat 0 60) 60 abc_store T)].
Defined.

Lemma getAddress_by_id_witness :
  holds 64 abc_store abc_objects /\
  getAddress 64 12 abc_store = (10, abc_store) /\
  getAddress 64 13 abc_store = (64, abc_store).
Proof.
  assert (H : holds 64 abc_store abc_objects)
    by (apply holds_check_sound; vm_compute; reflexivity).
  pose proof (getAddress_by_id 64 abc_store abc_objects 12 H) as T1.
  pose proof (getAddress_by_id 64 abc_store abc_objects 13 H) as T2.
  change (find_index 12 abc_objects) with (Some 2%nat) in T1.
  change (find_index 13 abc_objects) with (@None nat) in T2.
  destruct T1 as [T1 _].
  split; [exact H|]. split; [exact T1|exact T2].
Defined.

Lemma getObjectData_by_id_witness :
  holds 64 abc_store abc_objects /\
  getObjectData 64 11 abc_store = (mkObjectData 11 6, abc_store) /\
  load 64 11 abc_store = (Some [5; 6; 7; 8; 9; 10], abc_store) /\
  getObjectData 64 13 abc_store = (mkObjectData 13 0, abc_store) /\
  load 64 13 abc_store = (None, abc_store).
Proof.
  assert (H : holds 64 abc_store abc_objects)
    by (apply holds_check_sound; vm_compute; reflexivity).
  pose proof (getObjectData_by_id 64 abc_store abc_objects 11 H) as T1.
  pose proof (getObjectData_by_id 64 abc_store abc_objects 13 H) as T2.
  change (find_index 11 abc_objects) with (Some 1%nat) in T1.
  change (find_index 13 abc_objects) with (@None nat) in T2.
  destruct T1 as (T1 & _ & T1' & _). destruct T2 as [T2 T3].
  assert (R : record_bytes abc_store abc_objects 1 = [5; 6; 7; 8; 9; 10])
    by (vm_compute; reflexivity).
  rewrite R in T1'.
  split; [exact H|]. split; [exact T1|]. split; [exact T1'|]. split; [exact T2|exact T3].
Defined.

Lemma exists_iff_stored_witness :
  holds 64 abc_store abc_objects /\
  (exists_ 64 12 abc_store).1 = true /\ (exists_ 64 13 abc_store).1 = false.
Proof.
  assert (H : holds 64 abc_store abc_objects)
    by (apply holds_check_sound; vm_compute; reflexivity).
  destruct (exists_iff_stored 64 abc_store abc_objects 12 H) as [[_ T1] _].
  destruct (exists_iff_stored 64 abc_store abc_objects 13 H) as [_ [T2 _]].
  split; [exact H|]. split.
  - apply T1. simpl. tauto.
  - apply T2. vm_compute. reflexivity.
Defined.

Lemma remove_then_absent_witness :
  holds 64 abc_store abc_objects /\
  exists_ 64 11 (remove 64 11 abc_store).2 = (false, (remove 64 11 abc_store).2) /\
  load 64 12 (remove 64 11 abc_store).2 = (Some [11; 12], (remove 64 11 abc_store).2).
Proof.
  assert (H : holds 64 abc_store abc_objects)
    by (apply holds_check_sound; vm_compute; reflexivity).
  assert (Hnd : NoDup (map obj_id abc_objects))
    by (apply (bool_decide_unpack _); vm_compute; reflexivity).
  pose proof (remove_then_absent 64 abc_store abc_objects 11 H Hnd) as T.
  cbv zeta in T. destruct T as (T1 & _ & T3).
  split; [exact H|]. split; [exact T1|].
  rewrite (T3 12 ltac:(lia)). f_equal; vm_compute; reflexivity.
Defined.

Lemma save_resize_round_trip_witness :
  holds 64 abc_store abc_objects /\
  (save 64 true 10 [1; 2; 3; 4; 5] 5 abc_store).1 = true /\
  holds 64 (save 64 true 10 [1; 2; 3; 4; 5] 5 abc_store).2
    [mkObjectData 11 6; mkObjectData 12 2; mkObjectData 10 5] /\
  load 64 10 (save 64 true 10 [1; 2; 3; 4; 5] 5 abc_store).2 =
    (Some [1; 2; 3; 4; 5], (save 64 true 10 [1; 2; 3; 4; 5] 5 abc_store).2).
Proof.
  assert (H : holds 64 abc_store abc_objects)
    by (apply holds_check_sound; vm_compute; reflexivity).
  assert (Hnd : NoDup (map obj_id abc_objects))
    by (apply (bool_decide_unpack _); vm_compute; reflexivity).
  assert (Hsrc : Forall (fun v => 0 <= v < 256) [1; 2; 3; 4; 5])
    by (repeat (constructor; [cbv beta; lia|]); constructor).
  pose proof (save_resize_round_trip 64 abc_store abc_objects 10 0 [1; 2; 3; 4; 5] 5
                H Hnd eq_refl ltac:(simpl; lia) eq_refl Hsrc
                ltac:(vm_compute; congruence)) as T.
  cbv zeta in T. destruct T as (T1 & T2 & T3).
  split; [exact H|]. split; [exact T1|]. split; [exact T2|exact T3].
Defined.

Lemma setup_then_valid_witness :
  (setup 64 false 1234 7 empty_store).1 = true /\
  isValid 64 1234 7 (setup 64 false 1234 7 empty_store).2 =
    (true, (setup 64 false 1234 7 empty_store).2) /\
  setup 64 false 1234 7 (setup 64 false 1234 7 empty_store).2 =
    (false, (setup 64 false 1234 7 empty_store).2).
Proof.
  assert (Hb : bytes_ok empty_store)
    by (intros a; unfold rd; simpl; rewrite lookup_empty; simpl; lia).
  pose proof (setup_then_valid 64 empty_store false 1234 7 Hb ltac:(lia) ltac:(lia)
                ltac:(lia)) as T.
  change ((isValid 64 1234 7 empty_store).1) with false in T.
  cbv zeta in T. destruct T as (T1 & _ & T3 & T4).
  split; [exact T1|]. split; [exact T3|exact T4].
Defined.

Lemma saveSerial_loadSerial_witness :
  (saveSerial 64 false 13 (mkPoint 7 1000) abc_store).1 = true /\
  loadSerial 64 13 (mkPoint 0 0) (saveSerial 64 false 13 (mkPoint 7 1000) abc_store).2 =
    ((true, mkPoint 7 1000), (saveSerial 64 false 13 (mkPoint 7 1000) abc_store).2).
Proof.
  assert (H : holds 64 abc_store abc_objects)
    by (apply holds_check_sound; vm_compute; reflexivity).
  assert (Es : (serialize (mkPoint 7 1000)
                  (repeat 0 (Z.to_nat (u16 (ser_size (mkPoint 7 1000))))) 0).1 = [7; 232; 3])
    by (vm_compute; reflexivity).
  pose proof (saveSerial_loadSerial 64 abc_store abc_objects false 13
                (mkPoint 7 1000) (mkPoint 0 0) H eq_refl ltac:(simpl; lia) ltac:(lia))
    as T.
  cbv zeta in T. rewrite Es in T.
  destruct (T eq_refl ltac:(repeat (constructor; [cbv beta; lia|]); constructor)
              ltac:(vm_compute; congruence)) as [T1 T2].
  split; [exact T1|]. rewrite T2. reflexivity.
Defined.

Lemma save_current_bytes_no_write_witness :
  holds 64 abc_store abc_objects /\
  save 64 false 11 [5; 6; 7; 8; 9; 10] 6 abc_store = (true, abc_store).
Proof.
  assert (H : holds 64 abc_store abc_objects)
    by (apply holds_check_sound; vm_compute; reflexivity).
  pose proof (save_current_bytes_no_write 64 abc_store abc_objects false 11 1 H eq_refl) as T.
  cbv zeta in T.
  assert (R : record_bytes abc_store abc_objects 1 = [5; 6; 7; 8; 9; 10])
    by (vm_compute; reflexivity).
  rewrite R in T. change (obj_size (nth 1 abc_objects dflt_ObjectData)) with 6 in T.
  split; [exact H|exact T].
Defined.

Lemma saveObjectData_loadObjectData_witness :
  loadObjectData 512 2
    (saveObjectData 512 [mkObjectData 3 300; mkObjectData 9 0] 2 empty_store).2 =
  ([mkObjectData 3 300; mkObjectData 9 0],
   (saveObjectData 512 [mkObjectData 3 300; mkObjectData 9 0] 2 empty_store).2).
Proof.
  assert (Hb : bytes_ok empty_store)
    by (intros a; unfold rd; simpl; rewrite lookup_empty; simpl; lia).
  assert (Hf : Forall (fun o => 0 <= obj_id o < 256 /\ 0 <= obj_size o < 65536)
                 [mkObjectData 3 300; mkObjectData 9 0])
    by (repeat constructor; simpl; lia).
  destruct (saveObjectData_loadObjectData 512 [mkObjectData 3 300; mkObjectData 9 0]
              empty_store Hb ltac:(lia) Hf ltac:(simpl; lia)
              ltac:(simpl; unfold sizeof_ObjectData; lia)) as (_ & T & _).
  exact T.
Defined.
